(** * Speech Analysis App: the topic-modelling core of [app.py]

    A shallow embedding of [preprocess_text], [train_topic_model],
    [get_topic_words] and the "Key Topics" block of [app.py],
    with the properties of the specification stated and proved about it,
    followed by the upload section, the transcript preview and the model
    store ([save_model], [load_model], "Topic Identification") with
    properties read off the code.

    Conventions.
    - A Python [str] is a [string] whose characters are the code points
      0..255 (Latin-1).  On such text [\d] matches exactly [0]..[9] and
      [str.lower] stays inside the range, so both are defined here.
    - A Python [float] that is neither NaN nor infinite is modelled by the
      rational number it denotes ([Q]); only comparisons are used on them.
    - The libraries the program calls (spaCy, gensim, NLTK, scikit-learn,
      numpy) are interfaces: records of operations the program is
      parametric in.  A small rule-based implementation of each is given
      below and used to run the program on concrete inputs. *)

From Stdlib Require Import Ascii String QArith Qround Qabs.
From stdpp Require Import base option list sorting strings pretty gmap.

Local Open Scope string_scope.
Local Open Scope list_scope.

(** ** Python built-ins on [str] and [list] *)

Module Py.

(** [sep.join(parts)] *)
Fixpoint join (sep : string) (parts : list string) : string :=
  match parts with
  | [] => ""
  | [p] => p
  | p :: rest => p +:+ sep +:+ join sep rest
  end.

(** One character of [str.lower()]: [A-Z], and the Latin-1 capitals
    U+00C0..U+00DE except the multiplication sign U+00D7, move up by 32. *)
Definition lower_char (c : ascii) : ascii :=
  let n := nat_of_ascii c in
  if (((65 <=? n) && (n <=? 90)) || ((192 <=? n) && (n <=? 222) && negb (n =? 215)))%nat
  then ascii_of_nat (n + 32)
  else c.

(** [s.lower()] *)
Fixpoint lower (s : string) : string :=
  match s with
  | EmptyString => EmptyString
  | String c s' => String (lower_char c) (lower s')
  end.

(** [s[:n]] *)
Definition prefix (n : nat) (s : string) : string := String.substring 0 n s.

(** [[f(x) for x in xs if keep(x)]] *)
Fixpoint comprehension {A B : Type} (f : A -> B) (keep : A -> bool) (xs : list A) : list B :=
  match xs with
  | [] => []
  | x :: xs' =>
      if keep x then f x :: comprehension f keep xs' else comprehension f keep xs'
  end.

End Py.

(** ** The regular expression [\(\d{2}:\d{2}\)] *)

Module Re.

(** [\d] on Latin-1 text *)
Definition is_digit (c : ascii) : bool :=
  let n := nat_of_ascii c in ((48 <=? n) && (n <=? 57))%nat.

(** Does [s] start with a match of [\(\d{2}:\d{2}\)]?  A match is always
    7 characters long. *)
Definition timestamp_at (s : string) : bool :=
  match s with
  | String c0 (String c1 (String c2 (String c3 (String c4 (String c5 (String c6 _)))))) =>
      Ascii.eqb c0 "(" && is_digit c1 && is_digit c2 && Ascii.eqb c3 ":"
      && is_digit c4 && is_digit c5 && Ascii.eqb c6 ")"
  | _ => false
  end.

(** The scanner of [re.sub(pattern, '', s)]: left to right, each match
    found is dropped whole and scanning resumes behind it.  [skip] is the
    number of characters of the current match still to drop. *)
Fixpoint scan (skip : nat) (s : string) : string :=
  match s with
  | EmptyString => EmptyString
  | String c s' =>
      match skip with
      | S k => scan k s'
      | O => if timestamp_at s then scan 6 s' else String c (scan 0 s')
      end
  end.

(** [re.sub(r'\(\d{2}:\d{2}\)', '', s)] *)
Definition sub_timestamp (s : string) : string := scan 0 s.

(** The seven-character strings the pattern matches. *)
Inductive timestamp : string -> Prop :=
| timestamp_intro d1 d2 d3 d4 :
    is_digit d1 = true -> is_digit d2 = true ->
    is_digit d3 = true -> is_digit d4 = true ->
    timestamp (String "(" (String d1 (String d2 (String ":"
                (String d3 (String d4 (String ")" EmptyString))))))).

(** [stripped s r]: [r] is [s] with the leftmost, non-overlapping
    occurrences of the pattern removed, in one pass. *)
Inductive stripped : string -> string -> Prop :=
| stripped_nil : stripped "" ""
| stripped_match t rest r :
    timestamp t -> stripped rest r -> stripped (t ++ rest) r
| stripped_char c s r :
    timestamp_at (String c s) = false -> stripped s r ->
    stripped (String c s) (String c r).

End Re.

(** ** The language toolkit: spaCy, gensim, NLTK *)

Module spacy.
(** A token of a spaCy [Doc], with the two attributes the program reads. *)
Record Token := { text : string; ent_type_ : string }.
End spacy.

(** The four library objects [preprocess_text] imports. *)
Class Toolkit := {
  (** [spacy.load('en_core_web_sm')], applied to a text *)
  nlp : string -> list spacy.Token;
  (** [gensim.utils.simple_preprocess(text, deacc=True)] *)
  simple_preprocess : string -> list string;
  (** [gensim.parsing.preprocessing.STOPWORDS], a frozenset *)
  STOPWORDS : gset string;
  (** [WordNetLemmatizer().lemmatize] *)
  lemmatize : string -> string
}.

(** The argument of [preprocess_text]: a [str], or a [list] of them. *)
Inductive text_arg :=
| Str (s : string)
| StrList (l : list string).

Section Normalizer.
Context `{Toolkit}.

(** The words the program adds to gensim's stopwords. *)
Definition stopword_extension : list string :=
  ["look"; "lot"; "going"; "said"; "know"; "thing"; "well";
   "actually"; "thank"; "us"; "think"; "just"; "people"; "country";
   "ve"; "don"; "ll"].

Definition custom_stopwords : gset string :=
  STOPWORDS ∪ list_to_set stopword_extension.

Definition preprocess_text (text : text_arg) (debug : bool) : string :=
  let text := match text with
              | StrList parts => Py.join " " parts
              | Str s => s
              end in
  let text := Re.sub_timestamp text in
  let text := Py.lower text in
  let doc := nlp text in
  let text :=
    Py.join " "
      (Py.comprehension spacy.text
         (fun token => bool_decide (spacy.ent_type_ token ∉ ["PERSON"; "GPE"])) doc) in
  let tokens := simple_preprocess text in
  let tokens :=
    Py.comprehension lemmatize
      (fun token => bool_decide (token ∉ custom_stopwords)) tokens in
  let processed_text := Py.join " " tokens in
  processed_text.

(** The value of [text] after line 48: the text without timestamps, in
    lower case, rebuilt from the tokens the entity filter keeps. *)
Definition entity_filtered (text : text_arg) : string :=
  let text := match text with
              | StrList parts => Py.join " " parts
              | Str s => s
              end in
  let doc := nlp (Py.lower (Re.sub_timestamp text)) in
  Py.join " "
    (Py.comprehension spacy.text
       (fun token => bool_decide (spacy.ent_type_ token ∉ ["PERSON"; "GPE"])) doc).

(** The value of [tokens] after line 50: the surface tokens, before the
    stopword test and before lemmatization. *)
Definition surface_tokens (text : text_arg) : list string :=
  simple_preprocess (entity_filtered text).

(** The value of [tokens] after line 51: the tokens of the output. *)
Definition output_tokens (text : text_arg) : list string :=
  Py.comprehension lemmatize
    (fun token => bool_decide (token ∉ custom_stopwords)) (surface_tokens text).

End Normalizer.

(** ** The normalizer as the specification words it (section 4.1) *)

Module NormalizerSpec.
Section Steps.
Context `{Toolkit}.

(** A token is a stopword when the standard list or the extension
    list has it. *)
Definition is_stopword (t : string) : Prop :=
  t ∈ STOPWORDS \/ t ∈ stopword_extension.

(** A token is dropped by the entity filter when it is tagged as a
    person name or a geo-political entity. *)
Definition is_person_or_gpe (t : spacy.Token) : Prop :=
  spacy.ent_type_ t = "PERSON" \/ spacy.ent_type_ t = "GPE".

(** [normalize input out]: the eight steps, each naming its result. *)
Inductive normalize (input : text_arg) (out : string) : Prop :=
| normalize_steps (joined stripped lowered refiltered : string)
    (kept : list spacy.Token) (tokens content lemmas : list string) :
    (* a list is first joined with single spaces *)
    joined = match input with Str s => s | StrList l => Py.join " " l end ->
    (* timestamps are stripped *)
    Re.stripped joined stripped ->
    (* the whole text is lowercased *)
    lowered = Py.lower stripped ->
    (* tokens tagged PERSON or GPE are dropped, all others kept *)
    kept = filter (fun t => ~ is_person_or_gpe t) (nlp lowered) ->
    refiltered = Py.join " " (map spacy.text kept) ->
    (* tokenisation, without punctuation and accents *)
    tokens = simple_preprocess refiltered ->
    (* stopwords are removed *)
    content = filter (fun t => ~ is_stopword t) tokens ->
    (* each remaining token is lemmatized *)
    Forall2 (fun t l => l = lemmatize t) content lemmas ->
    (* the result is joined with single spaces *)
    out = Py.join " " lemmas ->
    normalize input out.
End Steps.
End NormalizerSpec.

(** ** Exceptions, Streamlit output and the calls into the vectorizer *)

(** The exceptions the modelled code can meet.  [ValueError] stands for the
    class with its subclasses, which is what [except ValueError] catches. *)
Inductive exception :=
| ValueError (msg : string)
| IndexError
| OtherError (cls msg : string).

Inductive outcome (A : Type) :=
| Return (a : A)
| Raise (e : exception).
Arguments Return {A} a.
Arguments Raise {A} e.

(** What a run leaves behind, in order: the lines handed to [st.write] and
    [st.error], and the document lists handed to the vectorizer. *)
Inductive event :=
| Write (s : string)
| Error (s : string)
| FitTransform (raw_documents : list string)
| Transform (raw_documents : list string).

(** A run of app code: the events so far, and a value or an exception. *)
Definition App (A : Type) : Type := (list event * outcome A)%type.

Global Instance App_ret : MRet App := fun A a => ([], Return a).

Global Instance App_bind : MBind App := fun A B k m =>
  match m with
  | (log, Return a) => let '(log', r) := k a in (log ++ log', r)
  | (log, Raise e) => (log, Raise e)
  end.

Definition events {A : Type} (m : App A) : list event := fst m.
Definition result {A : Type} (m : App A) : outcome A := snd m.

Definition emit (e : event) : App unit := ([e], Return tt).
Definition lift {A : Type} (r : outcome A) : App A := ([], r).

(** [try: body / except ValueError as e: handler(str(e))] *)
Definition try_except_ValueError {A : Type} (body : App A) (handler : string -> App A) : App A :=
  match body with
  | (log, Raise (ValueError msg)) => let '(log', r) := handler msg in (log ++ log', r)
  | other => other
  end.

Module st.
Definition write (s : string) : App unit := emit (Write s).
Definition error (s : string) : App unit := emit (Error s).
End st.

(** [xs[i]] for a list, a pandas [.iloc[i]] or a numpy array, [i >= 0] *)
Definition index {A : Type} (xs : list A) (i : nat) : outcome A :=
  match xs !! i with
  | Some x => Return x
  | None => Raise IndexError
  end.

(** ** scikit-learn and numpy *)

(** A document-term matrix, one row of counts per document. *)
Definition matrix : Type := list (list nat).

(** The constructor arguments of [LatentDirichletAllocation] the program sets. *)
Record LatentDirichletAllocation := {
  n_components : nat;
  random_state : option N;
  max_iter : nat
}.

(** The constructor arguments of [CountVectorizer] the program sets. *)
Record CountVectorizer := {
  max_df : Q;
  min_df : nat;
  stop_words : string;
  ngram_range : nat * nat
}.

Class Sklearn := {
  (** a fitted vectorizer, a fitted topic model, a numpy random generator *)
  Vectorizer : Type;
  LDA : Type;
  Generator : Type;
  (** [vectorizer.fit_transform(raw_documents)] on a fresh vectorizer *)
  fit_transform : CountVectorizer -> list string -> outcome (Vectorizer * matrix);
  (** [vectorizer.transform(raw_documents)]: the vectorizer after the call,
      and the matrix *)
  transform : Vectorizer -> list string -> outcome (Vectorizer * matrix);
  (** [vectorizer.vocabulary_], a dict, in insertion order *)
  vocabulary_ : Vectorizer -> list (string * nat);
  (** [vectorizer.get_feature_names_out()] *)
  get_feature_names_out : Vectorizer -> list string;
  (** [np.random.RandomState(seed)] *)
  RandomState : N -> Generator;
  (** the variational EM of [lda.fit(X)], drawing from the given generator *)
  lda_em : Generator -> nat -> nat -> matrix -> outcome LDA;
  (** [lda.transform(X)] *)
  lda_transform : LDA -> matrix -> outcome (list (list Q));
  (** [lda.components_] *)
  components_ : LDA -> list (list Q);
  (** [numpy.ndarray.argsort()] on a vector *)
  argsort : list Q -> list nat
}.

Section TopicModel.
Context `{Toolkit} `{Sklearn}.

(** [sklearn.utils.check_random_state]: an integer seeds a fresh
    generator; [None] means numpy's global one. *)
Definition check_random_state (seed : option N) (global : Generator) : Generator :=
  match seed with
  | None => global
  | Some n => RandomState n
  end.

(** [lda.fit(X)] for an estimator built with the given arguments. *)
Definition lda_fit (lda : LatentDirichletAllocation) (global : Generator) (X : matrix)
  : outcome LDA :=
  lda_em (check_random_state (random_state lda) global) (n_components lda) (max_iter lda) X.

(** The float literals of the program, as the doubles they denote. *)
Definition float_0_95 : Q := 4278419646001971 # 4503599627370496.
Definition float_0_1 : Q := 3602879701896397 # 36028797018963968.

(** The vectorizer [train_topic_model] builds on line 63. *)
Definition app_vectorizer : CountVectorizer :=
  {| max_df := float_0_95; min_df := 2; stop_words := "english"; ngram_range := (1, 2) |}.

(** The defaults of [n_topics] and [n_top_words]. *)
Definition default_n_topics : nat := 25.
Definition default_n_top_words : nat := 10.

Definition error_in_vectorization (msg : string) : string :=
  "Error in vectorization: " +:+ msg.
Definition error_empty_vocabulary : string :=
  "Error: Empty vocabulary. Please check your preprocessing steps.".

(** [repr] of a list of strings free of quotes and escapes *)
Definition repr_list (xs : list string) : string :=
  "[" +:+ Py.join ", " (map (fun x => "'" +:+ x +:+ "'") xs) +:+ "]".

(** [train_topic_model(df, n_topics=25, debug=False)].  [df] is the
    [speech_in_text] column; [global] is numpy's global generator at the
    time of the call. *)
Definition train_topic_model (global : Generator) (df : list string)
    (n_topics : nat) (debug : bool) : App (option Vectorizer * option LDA) :=
  (if debug then
     st.write ("Number of documents: " +:+ pretty (length df));;
     row ← lift (index df 0);
     st.write ("Sample raw text (first 100 chars): " +:+ Py.prefix 100 row)
   else mret tt);;
  let vectorizer :=
    {| max_df := float_0_95; min_df := 2; stop_words := "english"; ngram_range := (1, 2) |} in
  let preprocessed_docs := map (fun x => preprocess_text (Str x) debug) df in
  (if debug then
     row ← lift (index preprocessed_docs 0);
     st.write ("Sample preprocessed text (first 100 chars): " +:+ Py.prefix 100 row)
   else mret tt);;
  fitted ← try_except_ValueError
    (emit (FitTransform preprocessed_docs);;
     fit ← lift (fit_transform vectorizer preprocessed_docs);
     mret (Some fit))
    (fun e =>
       st.error (error_in_vectorization e);;
       mret None);
  match fitted with
  | None => mret (None, None)
  | Some (vectorizer, doc_term_matrix) =>
      if (length (vocabulary_ vectorizer) =? 0)%nat then
        st.error error_empty_vocabulary;;
        mret (None, None)
      else
        (if debug then
           st.write ("Vocabulary size: " +:+ pretty (length (vocabulary_ vectorizer)));;
           st.write ("Top 10 words in vocabulary: "
                     +:+ repr_list (take 10 (map fst (vocabulary_ vectorizer))))
         else mret tt);;
        let lda := {| n_components := n_topics; random_state := Some 42%N; max_iter := 10 |} in
        lda ← lift (lda_fit lda global doc_term_matrix);
        mret (Some vectorizer, Some lda)
  end.

(** [a[:-n - 1:-1]]: the last [n] items of [a], last one first (all of
    [a] reversed when it has fewer). *)
Definition last_reversed {A : Type} (n : nat) (a : list A) : list A :=
  take n (reverse a).

(** [[feature_names[i] for i in idxs]] *)
Fixpoint lookup_all (feature_names : list string) (idxs : list nat) : outcome (list string) :=
  match idxs with
  | [] => Return []
  | i :: rest =>
      match index feature_names i with
      | Raise e => Raise e
      | Return w =>
          match lookup_all feature_names rest with
          | Raise e => Raise e
          | Return ws => Return (w :: ws)
          end
      end
  end.

(** The loop of [get_topic_words] over [model.components_]. *)
Fixpoint topic_words_of (topics : list (list Q)) (feature_names : list string)
    (n_top_words : nat) : outcome (list (list string)) :=
  match topics with
  | [] => Return []
  | topic :: rest =>
      match lookup_all feature_names (last_reversed n_top_words (argsort topic)) with
      | Raise e => Raise e
      | Return top_words =>
          match topic_words_of rest feature_names n_top_words with
          | Raise e => Raise e
          | Return topic_words => Return (top_words :: topic_words)
          end
      end
  end.

(** [get_topic_words(model, feature_names, n_top_words=10)] *)
Definition get_topic_words (model : LDA) (feature_names : list string) (n_top_words : nat)
  : outcome (list (list string)) :=
  topic_words_of (components_ model) feature_names n_top_words.

End TopicModel.

(** ** Scoring: the "Key Topics" block *)

(** [x > y] on floats *)
Definition Qgtb (x y : Q) : bool := negb (Qle_bool x y).

(** [list(enumerate(xs))] *)
Definition enumerate {A : Type} (xs : list A) : list (nat * A) :=
  imap (fun i x => (i, x)) xs.

(** One step of a stable descending sort: [x], which stood before all of
    [sorted] in the original list, goes in front of the first item whose
    key is not greater than its own. *)
Fixpoint insert_reverse {A : Type} (key : A -> Q) (x : A) (sorted : list A) : list A :=
  match sorted with
  | [] => [x]
  | y :: rest =>
      if Qle_bool (key y) (key x) then x :: y :: rest
      else y :: insert_reverse key x rest
  end.

(** [xs.sort(key=key, reverse=True)]: descending by key, items of equal
    key in their original order. *)
Definition sort_reverse {A : Type} (key : A -> Q) (xs : list A) : list A :=
  foldr (insert_reverse key) [] xs.

(** Rounding to the nearest integer, ties to the even one. *)
Definition round_half_even (q : Q) : Z :=
  let f := Qfloor q in
  match (q - inject_Z f ?= 1 # 2)%Q with
  | Lt => f
  | Gt => (f + 1)%Z
  | Eq => if Z.even f then f else (f + 1)%Z
  end.

(** [f"{x:.2f}"] *)
Definition format_2f (x : Q) : string :=
  let n := round_half_even (Qabs x * 100) in
  let cents := (n mod 100)%Z in
  (if Qgtb 0 x then "-" else "")
  +:+ pretty (n / 100)%Z +:+ "."
  +:+ (if (cents <? 10)%Z then "0" else "") +:+ pretty cents.

Section Scoring.
Context `{Toolkit} `{Sklearn}.

(** Lines 190-191: the topics above the threshold, strongest first. *)
Definition relevant_topics (doc_topics : list Q) (relevance_threshold : Q) : list (nat * Q) :=
  let relevant_topics :=
    Py.comprehension (fun '(i, strength) => (i, strength))
      (fun '(i, strength) => Qgtb strength relevance_threshold)
      (enumerate doc_topics) in
  sort_reverse snd relevant_topics.

(** [', '.join(words[:5])] *)
Definition topic_label (words : list string) : string :=
  Py.join ", " (take 5 words).

(** The line written for one topic; the bullet is U+2022. *)
Definition topic_line (words : list string) (strength : Q) : string :=
  "• " +:+ topic_label words +:+ " (Strength: " +:+ format_2f strength +:+ ")".

(** Lines 194-195: the loop over the topics shown. *)
Fixpoint write_topics (topic_words : list (list string)) (shown : list (nat * Q)) : App unit :=
  match shown with
  | [] => mret tt
  | (topic_idx, strength) :: rest =>
      words ← lift (index topic_words topic_idx);
      st.write (topic_line words strength);;
      write_topics topic_words rest
  end.

Definition no_strong_topics : string :=
  "No strong topics identified in the selected transcript.".

(** Lines 183-197. *)
Definition key_topics (vectorizer : option Vectorizer) (lda : option LDA)
    (topic_words : list (list string)) (text : string) : App unit :=
  match vectorizer, lda with
  | Some vectorizer, Some lda =>
      st.write "Key Topics for the Selected Transcript:";;
      let preprocessed_text_topic := preprocess_text (Str text) false in
      emit (Transform [preprocessed_text_topic]);;
      '(vectorizer, doc_term_matrix) ← lift (transform vectorizer [preprocessed_text_topic]);
      rows ← lift (lda_transform lda doc_term_matrix);
      doc_topics ← lift (index rows 0);
      let relevance_threshold := float_0_1 in
      let relevant_topics := relevant_topics doc_topics relevance_threshold in
      match relevant_topics with
      | _ :: _ => write_topics topic_words (take 3 relevant_topics)
      | [] => st.write no_strong_topics
      end
  | _, _ => mret tt
  end.

(** The ranked [(label, strength)] sequence the block presents, with the
    threshold and the number of topics shown as parameters (0.1 and 3 in
    [key_topics]). *)
Fixpoint labelled (topic_words : list (list string)) (shown : list (nat * Q))
  : outcome (list (string * Q)) :=
  match shown with
  | [] => Return []
  | (topic_idx, strength) :: rest =>
      match index topic_words topic_idx with
      | Raise e => Raise e
      | Return words =>
          match labelled topic_words rest with
          | Raise e => Raise e
          | Return entries => Return ((topic_label words, strength) :: entries)
          end
      end
  end.

Definition score (doc_topics : list Q) (topic_words : list (list string))
    (threshold : Q) (top_k : nat) : outcome (list (string * Q)) :=
  labelled topic_words (take top_k (relevant_topics doc_topics threshold)).

End Scoring.

(** ** The bag-of-words vectorizer of section 4.2 *)

(** The maximal runs of characters of [s] that [is_sep] does not hold of;
    [run] is the run being read. *)
Fixpoint split_runs (is_sep : ascii -> bool) (run : string) (s : string) : list string :=
  match s with
  | EmptyString => if decide (run = "") then [] else [run]
  | String c s' =>
      if is_sep c then
        (if decide (run = "") then split_runs is_sep "" s'
         else run :: split_runs is_sep "" s')
      else split_runs is_sep (run +:+ String c "") s'
  end.

Module BagOfWords.

(** Modelled from the spec: scikit-learn's [CountVectorizer] is not part
    of the repository; this is the vectorizer section 4.2 describes.
    A fitted vectorizer is its arguments and its vocabulary, a mapping
    from term to feature index kept as a dict in insertion order. *)
Record fitted := {
  params : CountVectorizer;
  vocabulary : list (string * nat)
}.

(** Modelled from the spec: the lookup [vocabulary[term]] of the
    term-to-index mapping, [None] standing for [KeyError]. *)
Fixpoint index_of (vocab : list (string * nat)) (term : string) : option nat :=
  match vocab with
  | [] => None
  | (t, j) :: rest => if decide (t = term) then Some j else index_of rest term
  end.

(** Modelled from the spec: the windows of [n] consecutive tokens, from
    which the n-grams are made. *)
Fixpoint windows (n : nat) (ws : list string) : list (list string) :=
  match ws with
  | [] => []
  | _ :: rest => if (n <=? length ws)%nat then take n ws :: windows n rest else []
  end.

Section Analyzer.
(** the "standard English stopword filter" *)
Variable english : gset string.

(** Modelled from the spec: the terms of a normalized document are its
    space-separated tokens outside the English stopword list, and the
    pairs of neighbours among them (n-grams of order 1 and 2). *)
Definition analyze (doc : string) : list string :=
  let tokens :=
    filter (fun t => t ∉ english) (split_runs (Ascii.eqb " ") "" doc) in
  tokens ++ map (Py.join " ") (windows 2 tokens).

(** Modelled from the spec: counting the terms of one document against
    a vocabulary.  While fitting ([fixed = false]) an unseen term gets
    the next free index; once the vocabulary is frozen ([fixed = true])
    an unseen term is skipped.  The result is the vocabulary after the
    document and the feature index of every counted term. *)
Fixpoint count_terms (fixed : bool) (vocab : list (string * nat)) (terms : list string)
  : list (string * nat) * list nat :=
  match terms with
  | [] => (vocab, [])
  | term :: rest =>
      match index_of vocab term with
      | Some j =>
          let '(vocab', js) := count_terms fixed vocab rest in (vocab', j :: js)
      | None =>
          if fixed then count_terms fixed vocab rest
          else
            let j := length vocab in
            let '(vocab', js) := count_terms fixed (vocab ++ [(term, j)]) rest in
            (vocab', j :: js)
      end
  end.

(** Modelled from the spec: the same over a list of documents,
    threading the vocabulary. *)
Fixpoint count_vocab (fixed : bool) (vocab : list (string * nat)) (docs : list string)
  : list (string * nat) * list (list nat) :=
  match docs with
  | [] => (vocab, [])
  | doc :: rest =>
      let '(vocab1, js) := count_terms fixed vocab (analyze doc) in
      let '(vocab2, jss) := count_vocab fixed vocab1 rest in
      (vocab2, js :: jss)
  end.

(** Modelled from the spec: the count row of a document over [width]
    features, as a row of the document-term matrix. *)
Definition row (width : nat) (js : list nat) : list nat :=
  map (fun j => length (filter (fun j' => j' = j) js)) (seq 0 width).

(** Modelled from the spec: [transform] counts against the frozen
    vocabulary and gives one row per document. *)
Definition transform (v : fitted) (docs : list string) : outcome (fitted * matrix) :=
  let '(vocab, jss) := count_vocab true (vocabulary v) docs in
  Return ({| params := params v; vocabulary := vocab |},
          map (row (length vocab)) jss).

(** Modelled from the spec: the number of documents a term occurs in. *)
Definition document_frequency (term : string) (docs : list string) : nat :=
  length (filter (fun doc => term ∈ analyze doc) docs).

(** Modelled from the spec: [fit] learns the terms of the corpus, drops
    those in more than [max_df] of the documents or in fewer than
    [min_df] documents, and numbers the rest.  A corpus without any
    term is rejected with a value error. *)
Definition fit_transform (p : CountVectorizer) (docs : list string)
  : outcome (fitted * matrix) :=
  let '(learned, _) := count_vocab false [] docs in
  match learned with
  | [] => Raise (ValueError
            "empty vocabulary; perhaps the documents only contain stop words")
  | _ :: _ =>
      let n := length docs in
      let kept :=
        filter (fun term =>
                  let d := document_frequency term docs in
                  Qle_bool (inject_Z (Z.of_nat d)) (max_df p * inject_Z (Z.of_nat n)) = true
                  /\ min_df p <= d)
               (map fst learned) in
      let vocab := imap (fun j term => (term, j)) kept in
      let '(_, jss) := count_vocab true vocab docs in
      Return ({| params := p; vocabulary := vocab |}, map (row (length vocab)) jss)
  end.
End Analyzer.

End BagOfWords.

(** ** A rule-based implementation of the interfaces

    Enough of each library to run the program on plain ASCII text: the
    tokenizer and the lemmatizer follow the algorithms of gensim and NLTK
    over a small word list; the tagger is a gazetteer.  *)

Module Reference.

Definition is_space (c : ascii) : bool :=
  let n := nat_of_ascii c in ((n =? 32) || ((9 <=? n) && (n <=? 13)))%nat.

(** Lower-cased names the gazetteer knows. *)
Definition persons : list string := ["obama"; "lincoln"; "washington"].
Definition places : list string := ["america"; "france"; "texas"].

(** One token per whitespace-separated word, tagged from the gazetteer. *)
Definition nlp (text : string) : list spacy.Token :=
  map (fun w =>
         {| spacy.text := w;
            spacy.ent_type_ :=
              if decide (w ∈ persons) then "PERSON"
              else if decide (w ∈ places) then "GPE" else "" |})
      (split_runs is_space "" text).

(** [(?!\d)\w] on ASCII: a letter or the underscore. *)
Definition is_alphabetic (c : ascii) : bool :=
  let n := nat_of_ascii c in
  (((65 <=? n) && (n <=? 90)) || ((97 <=? n) && (n <=? 122)) || (n =? 95))%nat.

(** gensim's [simple_preprocess] on ASCII text: the alphabetic runs of the
    lower-cased text that are 2 to 15 characters long and do not start
    with an underscore. *)
Definition simple_preprocess (text : string) : list string :=
  filter (fun t => 2 <= String.length t <= 15 /\ String.prefix "_" t = false)
         (split_runs (fun c => negb (is_alphabetic c)) "" (Py.lower text)).

(** Some of gensim's stopwords. *)
Definition STOPWORDS : gset string :=
  list_to_set ["the"; "is"; "and"; "of"; "to"; "in"; "an"; "it"; "this";
               "that"; "was"; "be"; "are"; "for"; "on"; "with"; "as"; "at";
               "by"; "every"].

(** Some of WordNet's nouns. *)
Definition nouns : list string :=
  ["economy"; "trade"; "policy"; "president"; "year"; "thing"; "country";
   "look"; "lot"; "speech"; "topic"; "tax"; "growth"].

(** WordNet's detachment rules for nouns: a suffix and its replacement. *)
Definition noun_rules : list (string * string) :=
  [("s", ""); ("ses", "s"); ("ves", "f"); ("xes", "x"); ("zes", "z");
   ("ches", "ch"); ("shes", "sh"); ("men", "man"); ("ies", "y")].

(** [word] with [suffix] replaced by [repl], when it ends with it. *)
Definition detach (word : string) (rule : string * string) : option string :=
  let '(suffix, repl) := rule in
  let stem_length := String.length word - String.length suffix in
  if decide (String.length suffix <= String.length word
             /\ String.substring stem_length (String.length suffix) word = suffix)
  then Some (String.substring 0 stem_length word +:+ repl)
  else None.

(** The first shortest string of a list. *)
Fixpoint shortest (best : string) (others : list string) : string :=
  match others with
  | [] => best
  | w :: rest =>
      if (String.length w <? String.length best)%nat then shortest w rest
      else shortest best rest
  end.

(** [WordNetLemmatizer().lemmatize(word)]: among the word and what the
    rules make of it, the shortest known noun; the word itself if none. *)
Definition lemmatize (word : string) : string :=
  match filter (fun w => w ∈ nouns) (word :: omap (detach word) noun_rules) with
  | [] => word
  | w :: ws => shortest w ws
  end.

Global Instance toolkit : Toolkit :=
  Build_Toolkit nlp simple_preprocess STOPWORDS lemmatize.

(** Some of scikit-learn's English stopwords. *)
Definition english : gset string :=
  list_to_set ["the"; "and"; "is"; "of"; "to"; "in"; "every"].

(** [argsort]: the indices by ascending value. *)
Definition argsort (v : list Q) : list nat :=
  map fst (reverse (sort_reverse snd (enumerate v))).

(** A stand-in for the topic model: a model is its matrix of topic-term
    weights.  Fitting gives topic [t] the counts of the columns the
    generator assigns to it, on top of a prior of 1; it runs no
    iterations. *)
Definition column_sum (X : matrix) (j : nat) : Z :=
  foldr (fun (r : list nat) acc => (Z.of_nat (default O (r !! j)) + acc)%Z) 0%Z X.

Definition lda_em (gen : N) (k iterations : nat) (X : matrix) : outcome (list (list Q)) :=
  match k with
  | 0 => Raise (ValueError "n_components must be positive")
  | S _ =>
      let width := length (default [] (X !! 0)) in
      Return
        (map (fun t =>
                map (fun j =>
                       if decide ((j + N.to_nat gen) mod k = t)
                       then inject_Z (1 + column_sum X j)
                       else 1%Q)
                    (seq 0 width))
             (seq 0 k))
  end.

(** The strength of a topic in a document: the weight its terms carry in
    that topic, over the total of all topics. *)
Definition dot (r : list nat) (topic : list Q) : Q :=
  foldr Qplus 0%Q (zip_with (fun c w => inject_Z (Z.of_nat c) * w)%Q r topic).

Definition lda_transform (model : list (list Q)) (X : matrix) : outcome (list (list Q)) :=
  Return
    (map (fun r =>
            let raw := map (fun topic => 1 + dot r topic)%Q model in
            let total := foldr Qplus 0%Q raw in
            map (fun x => Qred (x / total)) raw)
         X).

Global Instance sklearn : Sklearn :=
  Build_Sklearn BagOfWords.fitted (list (list Q)) N
    (BagOfWords.fit_transform english)
    (BagOfWords.transform english)
    BagOfWords.vocabulary
    (fun v => map fst (BagOfWords.vocabulary v))
    (fun seed => seed)
    lda_em
    lda_transform
    (fun model => model)
    argsort.

End Reference.

(** ** Sample inputs *)

Module Sample.

(** A small corpus, and a corpus whose documents all normalize to the
    empty string. *)
Definition corpus : list string :=
  ["The economy is growing (00:01) said the president";
   "the economy and trade policy grow every year";
   "economy policy things";
   "trade and economy"].

Definition drained_corpus : list string := ["the"; "(00:00)"].

(** Topic strengths of a document over six topics, and word lists for
    them. *)
Definition doc_topics : list Q := [1 # 20; 3 # 10; 1 # 10; 3 # 10; 1 # 4; 1 # 5].

Definition topic_words : list (list string) :=
  [["tax"; "year"]; ["economy"; "trade"; "policy"; "growth"; "year"; "tax"];
   ["speech"]; ["president"; "speech"]; ["country"]; []].

(** A fitted vectorizer and the topic-term weights of two topics. *)
Definition fitted : BagOfWords.fitted :=
  {| BagOfWords.params := app_vectorizer;
     BagOfWords.vocabulary := [("trade", 0); ("policy", 1)] |}.

Definition components : list (list Q) := [[3; 1]; [1; 3]]%Q.

End Sample.

(** ** What the interfaces promise *)

(** The diagnostics of a run: the lines handed to [st.error]. *)
Definition diagnostics {A : Type} (m : App A) : list string :=
  omap (fun e => match e with Error s => Some s | _ => None end) (events m).

(** The events that are lines handed to [st.write]. *)
Definition is_write (e : event) : Prop := exists s, e = Write s.

(** [idxs] are the [n] indices of highest weight in [topic] (all indices
    when it has fewer), by descending weight. *)
Definition highest (n : nat) (topic : list Q) (idxs : list nat) : Prop :=
  length idxs = n `min` length topic /\
  NoDup idxs /\
  (forall i, i ∈ idxs -> i < length topic) /\
  (forall a b i j, a <= b -> idxs !! a = Some i -> idxs !! b = Some j ->
                   (default 0 (topic !! j) <= default 0 (topic !! i))%Q) /\
  (forall i j, i ∈ idxs -> j < length topic -> j ∉ idxs ->
               (default 0 (topic !! j) <= default 0 (topic !! i))%Q).

(** [v[i]] for an index known to be in range. *)
Definition weight (v : list Q) (i : nat) : Q := default 0%Q (v !! i).

(** [StronglySorted (descending key)]: every item's key is at least the
    key of every later item. *)
Definition descending {A : Type} (key : A -> Q) (a b : A) : Prop := (key b <= key a)%Q.

(** What numpy promises of [argsort]: the result lists every index of the
    vector once, by ascending value.  The order among equal values is left
    open. *)
Definition argsort_sorts (argsort : list Q -> list nat) : Prop :=
  forall v : list Q,
    argsort v ≡ₚ seq 0 (length v) /\
    forall a b i j, a <= b -> argsort v !! a = Some i -> argsort v !! b = Some j ->
                    (weight v i <= weight v j)%Q.

(** What a vectorizer promises on a corpus of empty documents: it finds no
    term, so its fit is rejected with a value error or ends with an empty
    vocabulary. *)
Definition no_terms_in_empty_documents `{Sklearn} (cv : CountVectorizer) : Prop :=
  forall docs : list string,
    Forall (fun d => d = "") docs ->
    (exists msg, fit_transform cv docs = Raise (ValueError msg)) \/
    (exists v X, fit_transform cv docs = Return (v, X) /\ vocabulary_ v = []).

(** ** The rest of the page: preview, upload, model store *)

(** Line 133: the preview of a transcript in the select box,
    [x[:50] + "..." if len(x) > 50 else x]. *)
Definition display (x : string) : string :=
  if (50 <? String.length x)%nat then Py.prefix 50 x +:+ "..." else x.

Module os_path.

(** [p.rfind(c)] from position [pos] on, [found] being the last index seen
    so far; [None] stands for -1. *)
Fixpoint rfind_from (c : ascii) (p : string) (pos : nat) (found : option nat) : option nat :=
  match p with
  | EmptyString => found
  | String a p' => rfind_from c p' (S pos) (if Ascii.eqb a c then Some pos else found)
  end.

Definition rfind (c : ascii) (p : string) : option nat := rfind_from c p 0 None.

(** [p[i:]] *)
Fixpoint suffix_from (i : nat) (p : string) : string :=
  match i, p with
  | O, _ => p
  | S i', String _ p' => suffix_from i' p'
  | S _, EmptyString => EmptyString
  end.

(** The loop of [splitext] over the leading dots of the file name: is
    there, among the [steps] characters from [filenameIndex] on, one that
    is not a dot? *)
Fixpoint name_before_dot (p : string) (filenameIndex steps : nat) : bool :=
  match steps with
  | O => false
  | S steps' =>
      match String.get filenameIndex p with
      | Some c =>
          if Ascii.eqb c "." then name_before_dot p (S filenameIndex) steps' else true
      | None => false
      end
  end.

(** [os.path.splitext(p)] of [posixpath]: the extension runs from the last
    dot of the last path component, unless only dots come before it. *)
Definition splitext (p : string) : string * string :=
  let sepIndex := rfind "/" p in
  let dotIndex := rfind "." p in
  match dotIndex with
  | None => (p, "")
  | Some d =>
      let filenameIndex := match sepIndex with None => 0 | Some i => S i end in
      if (filenameIndex <=? d)%nat && name_before_dot p filenameIndex (d - filenameIndex)
      then (Py.prefix d p, suffix_from d p)
      else (p, "")
  end.

End os_path.

Module upload.
(** The file handed over by [st.file_uploader]. *)
Record UploadedFile := { name : string; content : string }.
End upload.

(** The readers of pandas: a data frame, or the message of the exception
    raised. *)
Class Pandas := {
  DataFrame : Type;
  read_csv : upload.UploadedFile -> string + DataFrame;
  read_excel : upload.UploadedFile -> string + DataFrame;
  read_pickle : upload.UploadedFile -> string + DataFrame
}.

Section Upload.
Context `{Pandas}.

Definition unsupported_file_type : string := "Unsupported file type.".

(** The [try] of lines 111-123 around one reader. *)
Definition read_or_report (r : string + DataFrame) : App (option DataFrame) :=
  match r with
  | inr df => mret (Some df)
  | inl e => st.error ("Error loading file: " +:+ e);; mret None
  end.

(** Lines 109-125: the value of [df] after the upload section. *)
Definition load_dataset (uploaded_file : option upload.UploadedFile) : App (option DataFrame) :=
  match uploaded_file with
  | Some f =>
      let file_extension := snd (os_path.splitext (upload.name f)) in
      if decide (file_extension = ".csv") then read_or_report (read_csv f)
      else if decide (file_extension ∈ [".xlsx"]) then read_or_report (read_excel f)
      else if decide (file_extension ∈ [".pkl"; ".pickle"]) then read_or_report (read_pickle f)
      else st.error unsupported_file_type;; mret None
  | None => mret None
  end.

(** The reader the upload section has for a file type of the uploader. *)
Definition reader_of (type : string) : option (upload.UploadedFile -> string + DataFrame) :=
  if decide (type = "csv") then Some read_csv
  else if decide (type = "xlsx") then Some read_excel
  else if decide (type = "pkl") then Some read_pickle
  else if decide (type = "pickle") then Some read_pickle
  else None.

End Upload.

(** Does [s] have the character [c]? *)
Fixpoint has_char (c : ascii) (s : string) : bool :=
  match s with
  | EmptyString => false
  | String a s' => Ascii.eqb a c || has_char c s'
  end.

Section ModelStore.
Context `{Toolkit} `{Sklearn}.

(** What [save_model] pickles. *)
Definition bundle : Type := (Vectorizer * LDA * list (list string))%type.

(** The file [topic_model.pkl]: absent, written by [save_model], or
    something [pickle.load] cannot read. *)
Inductive pickle_file :=
| Missing
| Pickled (b : bundle)
| Unreadable.

(** The file, and what [st.cache_resource] keeps of [load_model]: the
    object of its first successful call. *)
Definition store : Type := (pickle_file * option bundle)%type.

(** [save_model(vectorizer, lda, topic_words)] *)
Definition save_model (w : store) (vectorizer : Vectorizer) (lda : LDA)
    (topic_words : list (list string)) : store :=
  (Pickled (vectorizer, lda, topic_words), snd w).

(** [load_model()], under [st.cache_resource] *)
Definition load_model (w : store) : store * outcome bundle :=
  match snd w with
  | Some cached => (w, Return cached)
  | None =>
      match fst w with
      | Pickled b => ((fst w, Some b), Return b)
      | Unreadable => (w, Raise (OtherError "UnpicklingError" ""))
      | Missing => (w, Raise (OtherError "FileNotFoundError" "topic_model.pkl"))
      end
  end.

(** [os.path.exists('topic_model.pkl')] *)
Definition pickle_exists (w : store) : bool :=
  match fst w with
  | Missing => false
  | _ => true
  end.

Definition training_message : string := "Training topic model on the full dataset...".
Definition loading_message : string := "Loading pre-trained topic model...".
Definition failed_to_train : string :=
  "Failed to train topic model. Please check the debug information above.".

(** Lines 169-197, "Topic Identification": the store after the section,
    and its run. *)
Definition topic_identification (global : Generator) (w : store) (df : list string)
    (text : string) : store * App unit :=
  if negb (pickle_exists w) then
    match train_topic_model global df default_n_topics true with
    | (log, Raise e) => (w, (Write training_message :: log, Raise e))
    | (log, Return (Some vectorizer, Some lda)) =>
        let feature_names := get_feature_names_out vectorizer in
        match get_topic_words lda feature_names default_n_top_words with
        | Raise e => (w, (Write training_message :: log, Raise e))
        | Return topic_words =>
            let w := save_model w vectorizer lda topic_words in
            let '(log', r) := key_topics (Some vectorizer) (Some lda) topic_words text in
            (w, (Write training_message :: log ++ log', r))
        end
    | (log, Return _) =>
        (w, (Write training_message :: log ++ [Error failed_to_train], Return tt))
    end
  else
    match load_model w with
    | (w, Raise e) => (w, ([Write loading_message], Raise e))
    | (w, Return (vectorizer, lda, topic_words)) =>
        let '(log, r) := key_topics (Some vectorizer) (Some lda) topic_words text in
        (w, (Write loading_message :: log, r))
    end.

End ModelStore.

(** [removed s r ts]: [ts] are the matches of the timestamp pattern in
    [s], from left to right and none overlapping another, and [r] is [s]
    without them: a character that starts no match is kept, a match is
    dropped whole. *)
Inductive removed : string -> string -> list string -> Prop :=
| removed_nil : removed "" "" []
| removed_match t rest r ts :
    Re.timestamp t -> removed rest r ts -> removed (t +:+ rest) r (t :: ts)
| removed_char c s r ts :
    Re.timestamp_at (String c s) = false -> removed s r ts ->
    removed (String c s) (String c r) ts.

(** [a] stands before [b] in a descending stable sort of topics that were
    enumerated by index: it is stronger, or as strong and of lower index. *)
Definition ranked_before (a b : nat * Q) : Prop :=
  (snd b < snd a)%Q \/ ((snd a == snd b)%Q /\ fst a < fst b).

(** A stand-in for the readers: a frame is the list of the lines of the
    file; only the CSV reader reads, and it rejects an empty file. *)
Module ReferenceUpload.

Definition read_csv (f : upload.UploadedFile) : string + list string :=
  if decide (upload.content f = "") then inl "No columns to parse from file"
  else inr (split_runs (Ascii.eqb "010") "" (upload.content f)).

Definition read_excel (f : upload.UploadedFile) : string + list string :=
  inl "Excel file format cannot be determined".

Definition read_pickle (f : upload.UploadedFile) : string + list string :=
  inl "invalid load key".

Global Instance pandas : Pandas := Build_Pandas (list string) read_csv read_excel read_pickle.

Definition speeches_csv : upload.UploadedFile :=
  {| upload.name := "speeches.csv";
     upload.content := String "s" (String "010" (String "a" EmptyString)) |}.

End ReferenceUpload.

(** Stores for the sample bundle: no pickle yet, and the bundle pickled. *)
Module SampleStore.

Definition sample_bundle : @bundle Reference.sklearn :=
  (Sample.fitted, Sample.components, Sample.topic_words).

Definition empty : @store Reference.sklearn := (Missing, None).

Definition saved : @store Reference.sklearn := (Pickled sample_bundle, None).

End SampleStore.

(** * Properties *)

(** ** Lists and strings *)

Lemma comprehension_filter {A B : Type} (f : A -> B) (P : A -> Prop)
    `{!forall x, Decision (P x)} (xs : list A) :
  Py.comprehension f (fun x => bool_decide (P x)) xs = map f (filter P xs).
Proof.
  induction xs as [|x xs IH]; [done|].
  cbn [Py.comprehension]. rewrite filter_cons.
  destruct (decide (P x)) as [Hx|Hx].
  - rewrite bool_decide_eq_true_2 by done. cbn. by rewrite IH.
  - rewrite bool_decide_eq_false_2 by done. done.
Qed.

Lemma comprehension_none {A B : Type} (f : A -> B) (keep : A -> bool) (xs : list A) :
  Forall (fun x => keep x = false) xs -> Py.comprehension f keep xs = [].
Proof.
  induction 1 as [|x xs Hx _ IH]; [done|]. cbn. by rewrite Hx.
Qed.

Lemma comprehension_all {A : Type} (f : A -> A) (keep : A -> bool) (xs : list A) :
  Forall (fun x => keep x = true /\ f x = x) xs -> Py.comprehension f keep xs = xs.
Proof.
  induction 1 as [|x xs [Hk Hf] _ IH]; [done|]. cbn. by rewrite Hk, Hf, IH.
Qed.

Lemma string_length_app (s1 s2 : string) :
  String.length (s1 +:+ s2) = String.length s1 + String.length s2.
Proof.
  induction s1 as [|c s1 IH]; [done|].
  change (String c s1 +:+ s2) with (String c (s1 +:+ s2)).
  cbn [String.length]. by rewrite IH.
Qed.

(** ** The timestamp pattern *)

Lemma timestamp_at_true (s : string) :
  Re.timestamp_at s = true -> exists t rest, s = t +:+ rest /\ Re.timestamp t.
Proof.
  destruct s as [|c0 [|c1 [|c2 [|c3 [|c4 [|c5 [|c6 rest]]]]]]]; try discriminate.
  cbn [Re.timestamp_at]. rewrite !andb_true_iff.
  intros [[[[[[H0 H1] H2] H3] H4] H5] H6].
  apply Ascii.eqb_eq in H0, H3, H6. subst c0 c3 c6.
  exists (String "(" (String c1 (String c2 (String ":"
            (String c4 (String c5 (String ")" EmptyString))))))), rest.
  split; [done|]. by constructor.
Qed.

Lemma timestamp_at_prefix (t rest : string) :
  Re.timestamp t -> Re.timestamp_at (t +:+ rest) = true.
Proof.
  intros [d1 d2 d3 d4 H1 H2 H3 H4].
  cbv [String.append]. cbn [Re.timestamp_at]. by rewrite H1, H2, H3, H4.
Qed.

Lemma scan_match (c : ascii) (s : string) :
  Re.timestamp_at (String c s) = true -> Re.scan 0 (String c s) = Re.scan 6 s.
Proof. intros Hat. cbn [Re.scan]. by rewrite Hat. Qed.

Lemma scan_timestamp (t rest : string) :
  Re.timestamp t -> Re.scan 0 (t +:+ rest) = Re.scan 0 rest.
Proof.
  intros Ht. pose proof (timestamp_at_prefix t rest Ht) as Hat.
  destruct Ht as [d1 d2 d3 d4 _ _ _ _].
  cbv [String.append] in *. by rewrite scan_match.
Qed.

Lemma timestamp_length (t : string) : Re.timestamp t -> String.length t = 7.
Proof. by intros []. Qed.

(** The scanner removes the matches, leftmost first and without overlap. *)
Lemma scan_stripped (s : string) : Re.stripped s (Re.sub_timestamp s).
Proof.
  unfold Re.sub_timestamp.
  remember (String.length s) as n eqn:Hn.
  revert s Hn. induction (lt_wf n) as [n _ IH]. intros s ->.
  destruct s as [|c s]; [constructor|].
  destruct (Re.timestamp_at (String c s)) eqn:Hat.
  - destruct (timestamp_at_true _ Hat) as (t & rest & Heq & Ht).
    assert (String.length rest < String.length (String c s)) as Hlt.
    { rewrite Heq, string_length_app, (timestamp_length t Ht). lia. }
    rewrite Heq, scan_timestamp by done. constructor; [done|].
    by eapply IH.
  - cbn [Re.scan]. rewrite Hat. constructor; [done|].
    eapply IH; [|done]. cbn. lia.
Qed.

(** The relation leaves one result only: the scanner's. *)
Lemma stripped_scan (s r : string) : Re.stripped s r -> r = Re.sub_timestamp s.
Proof.
  unfold Re.sub_timestamp.
  induction 1 as [|t rest r Ht _ IH|c s r Hat _ IH].
  - done.
  - by rewrite scan_timestamp.
  - cbn [Re.scan]. by rewrite Hat, IH.
Qed.

(** ** The normalizer *)

Section NormalizerFacts.
Context `{Toolkit}.

Lemma Forall2_lemmatize (content lemmas : list string) :
  Forall2 (fun t l => l = lemmatize t) content lemmas <-> lemmas = map lemmatize content.
Proof.
  split.
  - induction 1 as [|t l ts ls -> _ IH]; [done|]. cbn. by rewrite IH.
  - intros ->. induction content as [|t ts IH]; constructor; done.
Qed.

Lemma in_custom_stopwords (t : string) :
  t ∈ custom_stopwords <-> NormalizerSpec.is_stopword t.
Proof.
  unfold custom_stopwords, NormalizerSpec.is_stopword.
  by rewrite elem_of_union, elem_of_list_to_set.
Qed.

Lemma entity_test (t : spacy.Token) :
  spacy.ent_type_ t ∉ ["PERSON"; "GPE"] <-> ~ NormalizerSpec.is_person_or_gpe t.
Proof.
  unfold NormalizerSpec.is_person_or_gpe.
  rewrite !elem_of_cons, elem_of_nil. tauto.
Qed.

(** The output of [preprocess_text] is its output tokens, joined. *)
Lemma preprocess_text_tokens (input : text_arg) (debug : bool) :
  preprocess_text input debug = Py.join " " (output_tokens input).
Proof. by destruct input. Qed.

Lemma output_tokens_filter (input : text_arg) :
  output_tokens input
  = map lemmatize (filter (fun t => t ∉ custom_stopwords) (surface_tokens input)).
Proof. unfold output_tokens. apply comprehension_filter. Qed.

(** C2: for a string, or a list of strings joined with single spaces
    first, [preprocess_text] gives [out] exactly when [out] results from
    the steps of the specification in their order: strip the timestamps,
    lowercase, drop the tokens tagged PERSON or GPE and keep the others,
    tokenize, remove the tokens of the standard or of the extension
    stopword list, lemmatize each remaining token, join with single
    spaces. *)
Theorem preprocess_text_steps (input : text_arg) (debug : bool) (out : string) :
  preprocess_text input debug = out <-> NormalizerSpec.normalize input out.
Proof.
  split.
  - intros <-.
    eapply (NormalizerSpec.normalize_steps input _ _ _ _ _ _ _ _ (map lemmatize _)).
    + reflexivity.
    + apply scan_stripped.
    + reflexivity.
    + reflexivity.
    + reflexivity.
    + reflexivity.
    + reflexivity.
    + by apply Forall2_lemmatize.
    + rewrite preprocess_text_tokens, output_tokens_filter.
      unfold surface_tokens, entity_filtered.
      rewrite comprehension_filter.
      rewrite (list_filter_iff _ _ _ entity_test).
      rewrite (list_filter_iff _ (fun t => ~ NormalizerSpec.is_stopword t)).
      * by destruct input.
      * intros t. by rewrite in_custom_stopwords.
  - intros [joined stripped lowered refiltered kept tokens content lemmas
              Hj Hs Hl Hk Hr Ht Hc Hlem ->].
    apply stripped_scan in Hs. apply Forall2_lemmatize in Hlem.
    rewrite preprocess_text_tokens, output_tokens_filter.
    unfold surface_tokens, entity_filtered.
    rewrite comprehension_filter.
    rewrite (list_filter_iff _ _ _ entity_test).
    rewrite (list_filter_iff _ (fun t => ~ NormalizerSpec.is_stopword t))
      by (intros t; by rewrite in_custom_stopwords).
    subst. by destruct input.
Qed.

(** C10: the stopword test looks at the surface token, before
    lemmatization: a token of the text that is not a stopword itself
    survives the filter, and when its lemma is a stopword that lemma
    stands in the normalized output, between the lemmas of the tokens
    kept before and after it, so that the output holds a stopword. *)
Theorem stopword_lemma_survives (input : text_arg) (debug : bool) (t : string) :
  t ∈ surface_tokens input ->
  t ∉ custom_stopwords ->
  lemmatize t ∈ custom_stopwords ->
  exists before after : list string,
    output_tokens input = before ++ lemmatize t :: after /\
    preprocess_text input debug = Py.join " " (before ++ lemmatize t :: after) /\
    Exists (fun w => w ∈ custom_stopwords) (output_tokens input).
Proof.
  intros Hin Hsurface Hlemma.
  apply list_elem_of_split in Hin as (l1 & l2 & Heq).
  exists (map lemmatize (filter (fun t => t ∉ custom_stopwords) l1)),
         (map lemmatize (filter (fun t => t ∉ custom_stopwords) l2)).
  assert (output_tokens input
          = map lemmatize (filter (fun t => t ∉ custom_stopwords) l1)
            ++ lemmatize t :: map lemmatize (filter (fun t => t ∉ custom_stopwords) l2))
    as Hout.
  { rewrite output_tokens_filter, Heq, filter_app, filter_cons.
    destruct (decide (t ∉ custom_stopwords)); [|done].
    by rewrite map_app. }
  split; [done|]. split; [by rewrite preprocess_text_tokens, Hout|].
  rewrite Hout. apply Exists_app. right. by constructor.
Qed.

(** C5, as amended: normalizing an output again changes nothing when the
    output already satisfies the rules: tokenizing it again gives its own
    tokens, none of them is a stopword, and each is its own lemma. *)
Theorem normalization_fixed_point (input : text_arg) (debug debug' : bool) :
  surface_tokens (Str (preprocess_text input debug)) = output_tokens input ->
  Forall (fun t => t ∉ custom_stopwords) (output_tokens input) ->
  Forall (fun t => lemmatize t = t) (output_tokens input) ->
  preprocess_text (Str (preprocess_text input debug)) debug'
  = preprocess_text input debug.
Proof.
  intros Htok Hstop Hlem.
  rewrite (preprocess_text_tokens (Str _)). unfold output_tokens at 1.
  rewrite Htok, (preprocess_text_tokens input). f_equal.
  apply comprehension_all.
  rewrite Forall_forall in Hstop, Hlem. apply Forall_forall. intros t Ht.
  split; [|by apply Hlem]. apply bool_decide_eq_true_2. by apply Hstop.
Qed.

(** Nothing is left of a text all of whose tokens are stopwords. *)
Lemma preprocess_text_all_stopwords (input : text_arg) (debug : bool) :
  Forall (fun t => t ∈ custom_stopwords) (surface_tokens input) ->
  preprocess_text input debug = "".
Proof.
  intros Hall. rewrite preprocess_text_tokens. unfold output_tokens.
  rewrite comprehension_none; [done|].
  eapply Forall_impl; [exact Hall|]. intros t Ht. cbn.
  by apply bool_decide_eq_false_2; intros Hn.
Qed.

(** The empty text has no token, for a tagger and a tokenizer that find
    none in it. *)
Lemma surface_tokens_empty :
  nlp "" = [] -> simple_preprocess "" = [] ->
  surface_tokens (Str "") = [] /\ surface_tokens (StrList []) = [].
Proof.
  intros Hnlp Htok. unfold surface_tokens, entity_filtered. cbn.
  by rewrite Hnlp.
Qed.

End NormalizerFacts.

(** ** Comparing and sorting floats *)

Lemma Qgtb_lt (x y : Q) : Qgtb x y = true <-> (y < x)%Q.
Proof.
  unfold Qgtb. rewrite negb_true_iff, <- not_true_iff_false, Qle_bool_iff.
  split; [apply Qnot_le_lt | apply Qlt_not_le].
Qed.

Lemma insert_reverse_perm {A : Type} (key : A -> Q) (x : A) (sorted : list A) :
  insert_reverse key x sorted ≡ₚ x :: sorted.
Proof.
  induction sorted as [|y rest IH]; [done|].
  cbn. destruct (Qle_bool (key y) (key x)); [done|].
  rewrite IH. apply Permutation_swap.
Qed.

Lemma sort_reverse_perm {A : Type} (key : A -> Q) (xs : list A) :
  sort_reverse key xs ≡ₚ xs.
Proof.
  induction xs as [|x xs IH]; [done|].
  cbn. rewrite insert_reverse_perm. by rewrite IH.
Qed.

Lemma insert_reverse_sorted {A : Type} (key : A -> Q) (x : A) (sorted : list A) :
  StronglySorted (descending key) sorted ->
  StronglySorted (descending key) (insert_reverse key x sorted).
Proof.
  induction 1 as [|y rest Hrest IH Hy]; cbn.
  - by repeat constructor.
  - destruct (Qle_bool (key y) (key x)) eqn:Hle.
    + apply Qle_bool_iff in Hle. constructor; [by constructor|].
      constructor; [done|].
      eapply Forall_impl; [exact Hy|]. intros z Hz. unfold descending in *.
      eapply Qle_trans; [exact Hz|exact Hle].
    + constructor; [done|].
      rewrite insert_reverse_perm. constructor; [|done].
      unfold descending. apply Qlt_le_weak, Qnot_le_lt.
      intros Hc. apply Qle_bool_iff in Hc. congruence.
Qed.

Lemma sort_reverse_sorted {A : Type} (key : A -> Q) (xs : list A) :
  StronglySorted (descending key) (sort_reverse key xs).
Proof.
  induction xs as [|x xs IH]; [constructor|]. by apply insert_reverse_sorted.
Qed.

Lemma StronglySorted_lookup {A : Type} (R : A -> A -> Prop) (l : list A) (a b : nat) (x y : A) :
  StronglySorted R l -> a < b -> l !! a = Some x -> l !! b = Some y -> R x y.
Proof.
  intros Hs. revert a b. induction Hs as [|z l _ IH Hz]; intros a b Hab Ha Hb; [done|].
  destruct a as [|a], b as [|b]; try lia; cbn in *.
  - injection Ha as ->. rewrite Forall_forall in Hz. apply Hz.
    by eapply list_elem_of_lookup_2.
  - eapply (IH a b); [lia|done..].
Qed.

(** ** Enumerating *)

Lemma enumerate_lookup {A : Type} (xs : list A) (i : nat) (x : A) :
  (i, x) ∈ enumerate xs <-> xs !! i = Some x.
Proof.
  unfold enumerate. rewrite elem_of_lookup_imap. split.
  - intros (j & y & [= -> ->] & Hy). done.
  - intros Hx. by exists i, x.
Qed.

Lemma imap_fst_seq {A : Type} (xs : list A) (k : nat) :
  map fst (imap (fun i x => (k + i, x)) xs) = seq k (length xs).
Proof.
  revert k. induction xs as [|x xs IH]; intros k; [done|].
  cbn. rewrite Nat.add_0_r. f_equal.
  rewrite <- (IH (S k)). f_equal. apply imap_ext. intros i y _. cbn. f_equal. lia.
Qed.

Lemma enumerate_fst {A : Type} (xs : list A) :
  map fst (enumerate xs) = seq 0 (length xs).
Proof. apply (imap_fst_seq xs 0). Qed.

Lemma comprehension_elem {A B : Type} (f : A -> B) (keep : A -> bool) (xs : list A) (y : B) :
  y ∈ Py.comprehension f keep xs <-> exists x, x ∈ xs /\ keep x = true /\ y = f x.
Proof.
  induction xs as [|x xs IH]; cbn.
  - rewrite elem_of_nil. split; [done|]. intros (x & Hx & _). by apply elem_of_nil in Hx.
  - destruct (keep x) eqn:Hk; rewrite ?elem_of_cons, IH; split.
    + intros [->|(x' & Hx' & Hk' & ->)]; [exists x|exists x']; rewrite elem_of_cons; auto.
    + intros (x' & Hx' & Hk' & ->). apply elem_of_cons in Hx' as [->|Hx']; [by left|].
      right. by exists x'.
    + intros (x' & Hx' & Hk' & ->). exists x'. rewrite elem_of_cons. auto.
    + intros (x' & Hx' & Hk' & ->). apply elem_of_cons in Hx' as [->|Hx']; [congruence|].
      by exists x'.
Qed.

Lemma comprehension_sublist {A : Type} (f : A -> A) (keep : A -> bool) (xs : list A) :
  (forall x, f x = x) -> Py.comprehension f keep xs `sublist_of` xs.
Proof.
  intros Hf. induction xs as [|x xs IH]; cbn; [done|].
  destruct (keep x); [rewrite Hf; by constructor|by constructor].
Qed.

Lemma comprehension_length_mono {A B : Type} (f : A -> B) (keep1 keep2 : A -> bool)
    (xs : list A) :
  (forall x, keep1 x = true -> keep2 x = true) ->
  length (Py.comprehension f keep1 xs) <= length (Py.comprehension f keep2 xs).
Proof.
  intros Himp. induction xs as [|x xs IH]; cbn; [done|].
  destruct (keep1 x) eqn:H1.
  - rewrite (Himp x H1). cbn. lia.
  - destruct (keep2 x); cbn; lia.
Qed.

(** ** Scoring *)

Lemma relevant_topics_perm (doc_topics : list Q) (threshold : Q) :
  relevant_topics doc_topics threshold
  ≡ₚ Py.comprehension (fun '(i, strength) => (i, strength))
       (fun '(i, strength) => Qgtb strength threshold) (enumerate doc_topics).
Proof. apply sort_reverse_perm. Qed.

(** The topics kept are exactly those above the threshold. *)
Lemma relevant_topics_elem (doc_topics : list Q) (threshold : Q) (i : nat) (s : Q) :
  (i, s) ∈ relevant_topics doc_topics threshold
  <-> doc_topics !! i = Some s /\ (threshold < s)%Q.
Proof.
  rewrite relevant_topics_perm, comprehension_elem. split.
  - intros ([j x] & Hin & Hk & [= -> ->]).
    apply enumerate_lookup in Hin. by apply Qgtb_lt in Hk.
  - intros [Hi Hs]. exists (i, s). rewrite enumerate_lookup, Qgtb_lt. done.
Qed.



Lemma relevant_topics_length (doc_topics : list Q) (t1 t2 : Q) :
  (t1 <= t2)%Q ->
  length (relevant_topics doc_topics t2) <= length (relevant_topics doc_topics t1).
Proof.
  intros Hle. rewrite !relevant_topics_perm.
  apply comprehension_length_mono. intros [i s]. rewrite !Qgtb_lt.
  intros Hs. by eapply Qle_lt_trans.
Qed.

(** Labelling succeeds when every topic shown has its list of words. *)
Lemma labelled_total (topic_words : list (list string)) (shown : list (nat * Q)) :
  Forall (fun p => p.1 < length topic_words) shown ->
  exists entries,
    labelled topic_words shown = Return entries /\
    length entries = length shown /\
    forall j i s, shown !! j = Some (i, s) ->
      exists words, topic_words !! i = Some words /\
                    entries !! j = Some (topic_label words, s).
Proof.
  induction 1 as [|[i s] shown Hi _ (entries & Heq & Hlen & Hall)].
  - exists []. by repeat split.
  - cbn in Hi. apply lookup_lt_is_Some_2 in Hi as [words Hw].
    exists ((topic_label words, s) :: entries). cbn. unfold index. rewrite Hw, Heq.
    split; [done|]. split; [by rewrite Hlen|].
    intros [|j] i' s' Hj; cbn in *.
    + injection Hj as <- <-. by exists words.
    + by apply Hall.
Qed.

(** Scoring returns: every topic kept is a topic of the model, and the
    model has a word list for each. *)
Lemma score_total (doc_topics : list Q) (topic_words : list (list string))
    (threshold : Q) (top_k : nat) :
  length topic_words = length doc_topics ->
  exists entries,
    score doc_topics topic_words threshold top_k = Return entries /\
    length entries = top_k `min` length (relevant_topics doc_topics threshold) /\
    forall j i s, j < top_k ->
      relevant_topics doc_topics threshold !! j = Some (i, s) ->
      exists words, topic_words !! i = Some words /\
                    entries !! j = Some (topic_label words, s).
Proof.
  intros Hlen.
  destruct (labelled_total topic_words (take top_k (relevant_topics doc_topics threshold)))
    as (entries & Heq & Hlength & Hall).
  { apply Forall_forall. intros [i s] Hin. cbn.
    apply elem_of_take in Hin as (j & Hj & _).
    apply list_elem_of_lookup_2, relevant_topics_elem in Hj as [Hi _].
    rewrite Hlen. by eapply lookup_lt_Some. }
  exists entries. split; [done|]. split; [by rewrite Hlength, length_take|].
  intros j i s Hj Hrel. apply Hall. by rewrite lookup_take_lt.
Qed.


(** C6: with the document and its strengths fixed, a higher threshold
    never gives more topics and a lower one never fewer: the sequence
    returned for the higher of two thresholds is at most as long as the
    sequence returned for the lower. *)
Theorem score_threshold_monotone (doc_topics : list Q) (topic_words : list (list string))
    (lower higher : Q) (top_k : nat) :
  length topic_words = length doc_topics ->
  (lower <= higher)%Q ->
  exists few many,
    score doc_topics topic_words higher top_k = Return few /\
    score doc_topics topic_words lower top_k = Return many /\
    length few <= length many.
Proof.
  intros Hlen Hle.
  destruct (score_total doc_topics topic_words higher top_k Hlen) as (few & Hfew & Hf & _).
  destruct (score_total doc_topics topic_words lower top_k Hlen) as (many & Hmany & Hm & _).
  exists few, many. split; [done|]. split; [done|].
  rewrite Hf, Hm. pose proof (relevant_topics_length doc_topics lower higher Hle). lia.
Qed.

(** The lines of the block are the entries of [score] at the threshold 0.1
    and for three topics. *)
Section KeyTopics.
Context `{Toolkit} `{Sklearn}.

Lemma write_topics_labelled (topic_words : list (list string)) (shown : list (nat * Q))
    (entries : list (string * Q)) :
  labelled topic_words shown = Return entries ->
  exists lines,
    write_topics topic_words shown = (map Write lines, Return tt) /\
    Forall2 (fun '(label, strength) line =>
               line = "• " +:+ label +:+ " (Strength: " +:+ format_2f strength +:+ ")")
            entries lines.
Proof.
  revert entries. induction shown as [|[i s] shown IH]; intros entries Hl.
  - injection Hl as <-. exists []. by split; [|constructor].
  - cbn in Hl. cbn [write_topics].
    destruct (index topic_words i) as [words|e]; [|done].
    destruct (labelled topic_words shown) as [rest|e]; [|done].
    injection Hl as <-.
    destruct (IH rest eq_refl) as (lines & Hw & Hlines).
    exists (topic_line words s :: lines). split.
    + cbn. rewrite Hw. reflexivity.
    + constructor; [reflexivity|done].
Qed.

Lemma key_topics_score (vectorizer vectorizer' : Vectorizer) (lda : LDA)
    (topic_words : list (list string)) (text : string)
    (X : matrix) (rows : list (list Q)) (doc_topics : list Q)
    (entries : list (string * Q)) :
  transform vectorizer [preprocess_text (Str text) false] = Return (vectorizer', X) ->
  lda_transform lda X = Return rows ->
  rows !! 0 = Some doc_topics ->
  score doc_topics topic_words float_0_1 3 = Return entries ->
  exists lines,
    key_topics (Some vectorizer) (Some lda) topic_words text
    = (Write "Key Topics for the Selected Transcript:"
         :: Transform [preprocess_text (Str text) false] :: map Write lines,
       Return tt) /\
    match entries with
    | [] => lines = [no_strong_topics]
    | _ :: _ =>
        Forall2 (fun '(label, strength) line =>
                   line = "• " +:+ label +:+ " (Strength: " +:+ format_2f strength +:+ ")")
                entries lines
    end.
Proof.
  intros Ht Hl Hr Hs. unfold key_topics, score in *.
  cbn -[preprocess_text relevant_topics]. rewrite Ht.
  cbn -[preprocess_text relevant_topics]. rewrite Hl.
  cbn -[preprocess_text relevant_topics]. unfold index. rewrite Hr.
  cbn -[preprocess_text relevant_topics].
  destruct (relevant_topics doc_topics float_0_1) as [|p rest] eqn:Hrel.
  - injection Hs as <-. by exists [no_strong_topics].
  - destruct (write_topics_labelled _ _ _ Hs) as (lines & Hw & Hlines).
    exists lines. rewrite Hw. split; [done|].
    destruct entries as [|entry entries]; [|done].
    destruct p as [i s]. cbn in Hs.
    destruct (index topic_words i); [|done].
    by destruct (labelled topic_words (take 2 rest)).
Qed.

End KeyTopics.

(** ** Training *)

Section TrainerFacts.
Context `{Toolkit} `{Sklearn}.

(** The shape of a run of [train_topic_model] that gets past its debug
    preview: some written lines, the call of the vectorizer, and what
    follows from its outcome. *)
Lemma train_topic_model_run (global : Generator) (df : list string)
    (n_topics : nat) (debug : bool) :
  (debug = true -> df <> []) ->
  let docs := map (fun x => preprocess_text (Str x) debug) df in
  let run := train_topic_model global df n_topics debug in
  exists before : list event,
    Forall is_write before /\
    match fit_transform app_vectorizer docs with
    | Raise (ValueError msg) =>
        run = (before ++ [FitTransform docs; Error (error_in_vectorization msg)],
               Return (None, None))
    | Raise e => run = (before ++ [FitTransform docs], Raise e)
    | Return (v, X) =>
        if (length (vocabulary_ v) =? 0)%nat then
          run = (before ++ [FitTransform docs; Error error_empty_vocabulary],
                 Return (None, None))
        else
          exists after : list event,
            Forall is_write after /\
            run = (before ++ FitTransform docs :: after,
                   match lda_em (RandomState 42) n_topics 10 X with
                   | Return lda => Return (Some v, Some lda)
                   | Raise e => Raise e
                   end)
    end.
Proof.
  intros Hdf docs run. subst docs run. unfold train_topic_model.
  fold app_vectorizer.
  destruct debug.
  - destruct df as [|x df]; [by destruct Hdf|].
    eexists [_; _; _]. split; [repeat constructor; by eexists|].
    cbn -[preprocess_text pretty].
    destruct (fit_transform _ _) as [[v X]|[msg| |cls msg]];
      cbn -[preprocess_text pretty]; try done.
    destruct (length (vocabulary_ v) =? 0)%nat; [done|].
    eexists [_; _]. split; [repeat constructor; by eexists|].
    unfold lda_fit. cbn. by destruct (lda_em _ _ _ _).
  - exists []. split; [constructor|].
    cbn -[preprocess_text].
    destruct (fit_transform _ _) as [[v X]|[msg| |cls msg]];
      cbn -[preprocess_text]; try done.
    destruct (length (vocabulary_ v) =? 0)%nat; [done|].
    exists []. split; [constructor|].
    unfold lda_fit. cbn. by destruct (lda_em _ _ _ _).
Qed.

(** In debug mode the preview of row 0 comes before everything else: on
    a frame without rows the run ends there, before the vectorizer. *)
Lemma train_topic_model_debug_no_rows (global : Generator) (n_topics : nat) :
  train_topic_model global [] n_topics true
  = ([Write "Number of documents: 0"], Raise IndexError).
Proof. reflexivity. Qed.

(** Every other run reaches the vectorizer. *)
Lemma train_topic_model_reaches_fit (global : Generator) (df : list string)
    (n_topics : nat) (debug : bool) :
  FitTransform (map (fun x => preprocess_text (Str x) debug) df)
    ∈ events (train_topic_model global df n_topics debug)
  <-> (debug = true -> df <> []).
Proof.
  split.
  - intros Hin -> ->. rewrite train_topic_model_debug_no_rows in Hin.
    cbn in Hin. apply list_elem_of_singleton in Hin. done.
  - intros Hdf.
    destruct (train_topic_model_run global df n_topics debug Hdf) as (before & _ & Hrun).
    cbn zeta in Hrun.
    destruct (fit_transform _ _) as [[v X]|[msg| |cls msg]].
    + destruct (length (vocabulary_ v) =? 0)%nat.
      * rewrite Hrun. cbn. rewrite elem_of_app, elem_of_cons. auto.
      * destruct Hrun as (after & _ & ->). cbn. rewrite elem_of_app, elem_of_cons. auto.
    + rewrite Hrun. cbn. rewrite elem_of_app, elem_of_cons. auto.
    + rewrite Hrun. cbn. rewrite elem_of_app, elem_of_cons. auto.
    + rewrite Hrun. cbn. rewrite elem_of_app, elem_of_cons. auto.
Qed.

Lemma diagnostics_writes {A : Type} (before rest : list event) (r : outcome A) :
  Forall is_write before ->
  diagnostics (before ++ rest, r) = diagnostics (rest, r).
Proof.
  unfold diagnostics, events. cbn. intros Hb.
  induction Hb as [|e before [s ->] _ IH]; [done|]. cbn. exact IH.
Qed.

Lemma diagnostics_differ (msg : string) :
  error_in_vectorization msg <> error_empty_vocabulary.
Proof. unfold error_in_vectorization, error_empty_vocabulary. discriminate. Qed.

(** C3: training fails softly.  Whenever a run of [train_topic_model]
    hands the documents to the vectorizer and the fit raises a value
    error, or ends with an empty vocabulary, the run writes one
    diagnostic, a different one for each of the two cases, and returns
    [(None, None)]; so does, in particular, the run on a corpus all of
    whose documents normalize to the empty string, for a vectorizer that
    finds no term in empty documents. *)
Theorem train_topic_model_fails_softly (global : Generator) (df : list string)
    (n_topics : nat) (debug : bool) :
  let docs := map (fun x => preprocess_text (Str x) debug) df in
  let run := train_topic_model global df n_topics debug in
  FitTransform docs ∈ events run ->
  (forall msg, fit_transform app_vectorizer docs = Raise (ValueError msg) ->
     result run = Return (None, None) /\
     diagnostics run = [error_in_vectorization msg]) /\
  (forall v X, fit_transform app_vectorizer docs = Return (v, X) ->
     length (vocabulary_ v) = 0 ->
     result run = Return (None, None) /\
     diagnostics run = [error_empty_vocabulary]) /\
  (forall msg, error_in_vectorization msg <> error_empty_vocabulary) /\
  (no_terms_in_empty_documents app_vectorizer ->
   Forall (fun d => d = "") docs ->
   result run = Return (None, None) /\
   exists e, diagnostics run = [e] /\
             (e = error_empty_vocabulary \/ exists msg, e = error_in_vectorization msg)).
Proof.
  intros docs run Hreach.
  pose proof (proj1 (train_topic_model_reaches_fit global df n_topics debug) Hreach)
    as Hdf.
  destruct (train_topic_model_run global df n_topics debug Hdf)
    as (before & Hbefore & Hrun).
  fold docs run in Hrun.
  assert (forall msg, fit_transform app_vectorizer docs = Raise (ValueError msg) ->
            result run = Return (None, None) /\
            diagnostics run = [error_in_vectorization msg]) as Hraise.
  { intros msg Hfit. rewrite Hfit in Hrun. rewrite Hrun.
    split; [done|]. by rewrite diagnostics_writes. }
  assert (forall v X, fit_transform app_vectorizer docs = Return (v, X) ->
            length (vocabulary_ v) = 0 ->
            result run = Return (None, None) /\
            diagnostics run = [error_empty_vocabulary]) as Hempty.
  { intros v X Hfit Hvoc. rewrite Hfit, Hvoc in Hrun. cbn in Hrun. rewrite Hrun.
    split; [done|]. by rewrite diagnostics_writes. }
  split; [exact Hraise|]. split; [exact Hempty|].
  split; [exact diagnostics_differ|].
  intros Hlaw Hdocs. destruct (Hlaw docs Hdocs) as [[msg Hfit]|(v & X & Hfit & Hvoc)].
  - destruct (Hraise msg Hfit) as [Hres Hdiag]. split; [done|]. eauto.
  - destruct (Hempty v X Hfit) as [Hres Hdiag]; [by rewrite Hvoc|].
    split; [done|]. eauto.
Qed.

(** C9: training is reproducible.  Once the vectorizer has given a
    non-empty vocabulary and the matrix [X], the result of the trainer is
    the fit of the topic model on [X] with [n_topics] topics (25 by
    default), from a generator seeded with 42, bounded by 10 iterations:
    the pair of the vectorizer and that model, or what that fit raises.
    The fit draws from the seeded generator and not from numpy's global
    one, so two runs on the same documents give the same events and the
    same result whatever the state of the global generator. *)
Theorem training_is_reproducible (global1 global2 : Generator) (df : list string)
    (n_topics : nat) (debug : bool) :
  (forall vectorizer X,
     (debug = true -> df <> []) ->
     fit_transform app_vectorizer (map (fun x => preprocess_text (Str x) debug) df)
     = Return (vectorizer, X) ->
     length (vocabulary_ vectorizer) <> 0 ->
     result (train_topic_model global1 df n_topics debug)
     = match lda_em (RandomState 42) n_topics 10 X with
       | Return lda => Return (Some vectorizer, Some lda)
       | Raise e => Raise e
       end) /\
  train_topic_model global1 df n_topics debug
  = train_topic_model global2 df n_topics debug /\
  (forall X,
     lda_fit {| n_components := n_topics; random_state := Some 42%N; max_iter := 10 |}
       global1 X
     = lda_em (RandomState 42) n_topics 10 X) /\
  (forall vectorizer lda,
     result (train_topic_model global1 df n_topics debug)
     = Return (Some vectorizer, Some lda) ->
     exists X,
       fit_transform app_vectorizer (map (fun x => preprocess_text (Str x) debug) df)
       = Return (vectorizer, X) /\
       lda_em (RandomState 42) n_topics 10 X = Return lda) /\
  default_n_topics = 25.
Proof.
  split.
  { intros vectorizer X Hdf Hfit Hvoc.
    destruct (train_topic_model_run global1 df n_topics debug Hdf) as (before & _ & Hrun).
    cbn zeta in Hrun. rewrite Hfit in Hrun.
    apply Nat.eqb_neq in Hvoc. rewrite Hvoc in Hrun.
    destruct Hrun as (after & _ & ->). reflexivity. }
  split; [reflexivity|]. split; [reflexivity|]. split; [|reflexivity].
  intros vectorizer lda Hres.
  assert (debug = true -> df <> []) as Hdf.
  { intros -> ->. by rewrite train_topic_model_debug_no_rows in Hres. }
  destruct (train_topic_model_run global1 df n_topics debug Hdf) as (before & _ & Hrun).
  cbn zeta in Hrun.
  destruct (fit_transform _ _) as [[v X]|[msg| |cls msg]] eqn:Hfit;
    try (rewrite Hrun in Hres; discriminate).
  destruct (length (vocabulary_ v) =? 0)%nat; [rewrite Hrun in Hres; discriminate|].
  destruct Hrun as (after & _ & Hrun). rewrite Hrun in Hres. cbn in Hres.
  destruct (lda_em _ _ _ _) as [l|e] eqn:Hem; [|discriminate].
  exists X. by simplify_eq.
Qed.

End TrainerFacts.

Lemma training_is_reproducible_witness :
  (false = true -> Sample.corpus <> []) /\
  fit_transform app_vectorizer
    (map (fun x => preprocess_text (Str x) false) Sample.corpus)
  = Return (Sample.fitted, [[0; 0]; [1; 1]; [0; 1]; [1; 0]]) /\
  length (vocabulary_ Sample.fitted) <> 0 /\
  result (train_topic_model 7%N Sample.corpus 2 false)
  = match lda_em (RandomState 42) 2 10 [[0; 0]; [1; 1]; [0; 1]; [1; 0]] with
    | Return lda => Return (Some Sample.fitted, Some lda)
    | Raise e => Raise e
    end.
Proof.
  assert (false = true -> Sample.corpus <> []) as Hdf by discriminate.
  assert (fit_transform app_vectorizer
            (map (fun x => preprocess_text (Str x) false) Sample.corpus)
          = Return (Sample.fitted, [[0; 0]; [1; 1]; [0; 1]; [1; 0]])) as Hfit
    by (vm_compute; reflexivity).
  assert (length (vocabulary_ Sample.fitted) <> 0) as Hvoc by discriminate.
  split; [exact Hdf|]. split; [exact Hfit|]. split; [exact Hvoc|].
  exact (proj1 (@training_is_reproducible Reference.toolkit Reference.sklearn
                  7%N 9%N Sample.corpus 2 false)
           Sample.fitted [[0; 0]; [1; 1]; [0; 1]; [1; 0]] Hdf Hfit Hvoc).
Defined.

(** ** The top words of a topic *)

Section TopWords.
Context `{Sklearn}.

Lemma lookup_all_total (feature_names : list string) (idxs : list nat) :
  Forall (fun i => i < length feature_names) idxs ->
  exists words,
    lookup_all feature_names idxs = Return words /\
    Forall2 (fun i w => feature_names !! i = Some w) idxs words.
Proof.
  induction 1 as [|i idxs Hi _ (words & Heq & Hall)].
  - exists []. by split; [|constructor].
  - apply lookup_lt_is_Some_2 in Hi as [w Hw].
    exists (w :: words). cbn. unfold index. rewrite Hw, Heq.
    split; [done|]. by constructor.
Qed.

(** On a sorted index vector, [[:-n - 1:-1]] leaves the [n] indices of
    highest weight, highest first. *)
Lemma last_reversed_highest (n : nat) (topic : list Q) :
  argsort_sorts argsort ->
  highest n topic (last_reversed n (argsort topic)).
Proof.
  intros Hsort. destruct (Hsort topic) as [Hperm Hasc].
  assert (length (argsort topic) = length topic) as Hlen
    by (by rewrite Hperm, length_seq).
  assert (NoDup (argsort topic)) as Hnd by (rewrite Hperm; apply NoDup_seq).
  assert (forall i, i ∈ argsort topic <-> i < length topic) as Hin.
  { intros i. rewrite Hperm, elem_of_seq. lia. }
  (* the reversed vector is descending *)
  assert (forall a b i j, a <= b ->
            reverse (argsort topic) !! a = Some i ->
            reverse (argsort topic) !! b = Some j ->
            (weight topic j <= weight topic i)%Q) as Hdesc.
  { intros a b i j Hab Ha Hb.
    apply reverse_lookup_Some in Ha as [Ha Hla], Hb as [Hb Hlb].
    eapply (Hasc _ _ j i); [|exact Hb|exact Ha]. lia. }
  unfold last_reversed, highest.
  split; [by rewrite length_take, length_reverse, Hlen|].
  split.
  { apply (sublist_NoDup _ (reverse (argsort topic))).
    - by rewrite reverse_Permutation.
    - apply sublist_take. }
  split.
  { intros i Hi. apply Hin, elem_of_reverse.
    apply elem_of_take in Hi as (a & Ha & _). by eapply list_elem_of_lookup_2. }
  split.
  { intros a b i j Hab Ha Hb.
    apply lookup_take_Some in Ha as [Ha _], Hb as [Hb _].
    by eapply (Hdesc a b). }
  intros i j Hi Hj Hout.
  apply elem_of_take in Hi as (a & Ha & Han).
  apply Hin, elem_of_reverse, list_elem_of_lookup in Hj as [b Hb].
  destruct (decide (b < n)) as [Hbn|Hbn].
  - destruct Hout. apply elem_of_take. eauto.
  - eapply (Hdesc a b); [lia|done..].
Qed.

Lemma topic_words_of_total (topics : list (list Q)) (feature_names : list string)
    (n_top_words : nat) :
  argsort_sorts argsort ->
  Forall (fun topic => length topic = length feature_names) topics ->
  exists topic_words,
    topic_words_of topics feature_names n_top_words = Return topic_words /\
    Forall2 (fun topic words =>
               exists idxs,
                 highest n_top_words topic idxs /\
                 Forall2 (fun i w => feature_names !! i = Some w) idxs words)
            topics topic_words.
Proof.
  intros Hsort. induction 1 as [|topic topics Hlen _ (rest & Heq & Hall)].
  - exists []. by split; [|constructor].
  - pose proof (last_reversed_highest n_top_words topic Hsort) as Hhigh.
    destruct (lookup_all_total feature_names
                (last_reversed n_top_words (argsort topic))) as (words & Hw & Hwords).
    { apply Forall_forall. intros i Hi. rewrite <- Hlen.
      by apply Hhigh. }
    exists (words :: rest). cbn. rewrite Hw, Heq. split; [done|].
    constructor; [|done]. eauto.
Qed.

(** C8: for a fitted model whose topics weigh every feature name,
    [get_topic_words] returns one word list per topic, in the order of
    the topics; the list of a topic names the [n] features of highest
    weight in that topic (all of them when there are fewer than [n]), by
    descending weight, whatever order [argsort] gives to equal weights. *)
Theorem get_topic_words_highest (model : LDA) (feature_names : list string)
    (n_top_words : nat) :
  argsort_sorts argsort ->
  Forall (fun topic => length topic = length feature_names) (components_ model) ->
  exists topic_words,
    get_topic_words model feature_names n_top_words = Return topic_words /\
    Forall2 (fun topic words =>
               exists idxs,
                 highest n_top_words topic idxs /\
                 Forall2 (fun i w => feature_names !! i = Some w) idxs words)
            (components_ model) topic_words.
Proof. apply topic_words_of_total. Qed.

End TopWords.

(** ** Empty documents *)

Section EmptyDocuments.
Context `{Toolkit} `{Sklearn}.

(** C7: an input that is empty, or all of whose tokens the filters
    remove, normalizes to the empty string; nothing is raised and no
    error is written for it: training hands the empty document to the
    vectorizer in the place of the input, after written lines only, and
    the scoring block hands it to [transform]. *)
Theorem empty_document_is_vectorized (global : Generator) (df : list string)
    (n_topics : nat) (debug : bool) (i : nat) (x : string)
    (vectorizer : Vectorizer) (lda : LDA) (topic_words : list (list string)) :
  df !! i = Some x ->
  Forall (fun t => t ∈ custom_stopwords) (surface_tokens (Str x)) ->
  preprocess_text (Str x) debug = "" /\
  (exists before docs after,
     events (train_topic_model global df n_topics debug)
     = before ++ FitTransform docs :: after /\
     Forall is_write before /\
     docs !! i = Some "" /\
     length docs = length df) /\
  (exists after,
     events (key_topics (Some vectorizer) (Some lda) topic_words x)
     = Write "Key Topics for the Selected Transcript:" :: Transform [""] :: after) /\
  (nlp "" = [] -> simple_preprocess "" = [] ->
   preprocess_text (Str "") debug = "" /\ preprocess_text (StrList []) debug = "").
Proof.
  intros Hi Hall.
  assert (forall d, preprocess_text (Str x) d = "") as Hempty
    by (intros d; by apply preprocess_text_all_stopwords).
  split; [apply Hempty|]. split; [|split].
  - assert (debug = true -> df <> []) as Hdf by (intros _ ->; done).
    destruct (train_topic_model_run global df n_topics debug Hdf)
      as (before & Hbefore & Hrun).
    cbn zeta in Hrun.
    exists before, (map (fun x => preprocess_text (Str x) debug) df).
    assert (map (fun x => preprocess_text (Str x) debug) df !! i = Some ""
            /\ length (map (fun x => preprocess_text (Str x) debug) df) = length df)
      as [Hdoc Hlen].
    { split; [|apply length_map].
      rewrite list_lookup_fmap, Hi. cbn. by rewrite Hempty. }
    destruct (fit_transform _ _) as [[v X]|[msg| |cls msg]].
    + destruct (length (vocabulary_ v) =? 0)%nat.
      * rewrite Hrun. by eexists.
      * destruct Hrun as (after & _ & ->). by eexists.
    + rewrite Hrun. by eexists.
    + rewrite Hrun. by eexists.
    + rewrite Hrun. by eexists.
  - unfold key_topics. rewrite Hempty.
    cbn. destruct (transform vectorizer [""]) as [[v X]|e]; cbn; [|by eexists].
    destruct (lda_transform lda X) as [rows|e]; cbn; [|by eexists].
    destruct (index rows 0) as [doc_topics|e]; cbn; [|by eexists].
    destruct (relevant_topics doc_topics float_0_1); [by eexists|].
    destruct (write_topics _ _). by eexists.
  - intros Hnlp Htok.
    destruct (surface_tokens_empty Hnlp Htok) as [Hs Hl].
    split; apply preprocess_text_all_stopwords.
    + rewrite Hs. constructor.
    + rewrite Hl. constructor.
Qed.

End EmptyDocuments.

(** ** The frozen vocabulary *)

Section FrozenVocabulary.
Variable english : gset string.

Lemma count_terms_fixed (vocab : list (string * nat)) (terms : list string) :
  BagOfWords.count_terms true vocab terms
  = (vocab, omap (BagOfWords.index_of vocab) terms).
Proof.
  induction terms as [|term terms IH]; [done|].
  cbn. destruct (BagOfWords.index_of vocab term); by rewrite IH.
Qed.

Lemma count_vocab_fixed (vocab : list (string * nat)) (docs : list string) :
  BagOfWords.count_vocab english true vocab docs
  = (vocab,
     map (fun doc => omap (BagOfWords.index_of vocab) (BagOfWords.analyze english doc)) docs).
Proof.
  induction docs as [|doc docs IH]; [done|].
  cbn [BagOfWords.count_vocab map]. by rewrite count_terms_fixed, IH.
Qed.

Lemma omap_none {A B : Type} (f : A -> option B) (l : list A) :
  (forall x, x ∈ l -> f x = None) -> omap f l = [].
Proof.
  induction l as [|x l IH]; intros Hall; [done|].
  cbn. rewrite (Hall x) by left. apply IH. intros y Hy. apply Hall. by right.
Qed.

Lemma row_no_term (width : nat) : BagOfWords.row width [] = replicate width 0.
Proof.
  unfold BagOfWords.row. generalize 0 at 1.
  induction width as [|w IH]; intros k; [done|]. cbn. by rewrite IH.
Qed.

(** C4: [transform] works on the frozen vocabulary.  It returns, raising
    nothing, the vectorizer as it was and one count row per document, in
    which only the terms of the vocabulary are counted; for a single
    document none of whose terms is in the vocabulary that is one row of
    zeros. *)
Theorem transform_frozen_vocabulary (v : BagOfWords.fitted) (doc : string) :
  (forall term, term ∈ BagOfWords.analyze english doc ->
                BagOfWords.index_of (BagOfWords.vocabulary v) term = None) ->
  BagOfWords.transform english v [doc]
  = Return (v, [replicate (length (BagOfWords.vocabulary v)) 0]) /\
  (forall docs,
     BagOfWords.transform english v docs
     = Return (v, map (fun d =>
                         BagOfWords.row (length (BagOfWords.vocabulary v))
                           (omap (BagOfWords.index_of (BagOfWords.vocabulary v))
                              (BagOfWords.analyze english d)))
                      docs)).
Proof.
  intros Hout.
  assert (forall docs,
     BagOfWords.transform english v docs
     = Return (v, map (fun d =>
                         BagOfWords.row (length (BagOfWords.vocabulary v))
                           (omap (BagOfWords.index_of (BagOfWords.vocabulary v))
                              (BagOfWords.analyze english d)))
                      docs)) as Hall.
  { intros docs. unfold BagOfWords.transform. rewrite count_vocab_fixed.
    rewrite map_map. by destruct v. }
  split; [|exact Hall].
  rewrite Hall. cbn [map]. by rewrite omap_none, row_no_term.
Qed.

End FrozenVocabulary.

(** ** The rule-based implementation meets the interfaces *)

Lemma reference_argsort_sorts : argsort_sorts Reference.argsort.
Proof.
  intros v. unfold Reference.argsort.
  pose proof (sort_reverse_perm snd (enumerate v)) as Hperm.
  pose proof (sort_reverse_sorted snd (enumerate v)) as Hsorted.
  set (L := sort_reverse snd (enumerate v)) in *.
  split.
  - rewrite reverse_Permutation, Hperm. by rewrite enumerate_fst.
  - assert (forall k p, L !! k = Some p -> weight v p.1 = p.2) as Hweight.
    { intros k [i s] Hk. apply list_elem_of_lookup_2 in Hk.
      rewrite Hperm in Hk. apply enumerate_lookup in Hk.
      unfold weight. cbn. by rewrite Hk. }
    intros a b i j Hab Ha Hb.
    rewrite list_lookup_fmap in Ha, Hb.
    destruct (reverse L !! a) as [p|] eqn:Hp; [|done].
    destruct (reverse L !! b) as [q|] eqn:Hq; [|done].
    cbn in Ha, Hb. injection Ha as <-. injection Hb as <-.
    apply reverse_lookup_Some in Hp as [Hp Hla], Hq as [Hq Hlb].
    rewrite (Hweight _ _ Hp), (Hweight _ _ Hq).
    destruct (decide (a = b)) as [->|Hne].
    + rewrite Hp in Hq. injection Hq as ->. apply Qle_refl.
    + eapply (StronglySorted_lookup (descending snd) L _ _ q p Hsorted);
        [|exact Hq|exact Hp]. lia.
Qed.

Lemma reference_count_vocab_empty (docs : list string) :
  Forall (fun d => d = "") docs ->
  BagOfWords.count_vocab Reference.english false [] docs = ([], map (fun _ => []) docs).
Proof.
  induction 1 as [|d docs -> _ IH]; [done|].
  cbn [BagOfWords.count_vocab map].
  replace (BagOfWords.analyze Reference.english "") with (@nil string) by reflexivity.
  cbn [BagOfWords.count_terms]. by rewrite IH.
Qed.

Lemma reference_no_terms (cv : CountVectorizer) : no_terms_in_empty_documents cv.
Proof.
  intros docs Hdocs. left. eexists. cbn. unfold BagOfWords.fit_transform.
  by rewrite reference_count_vocab_empty.
Qed.

(** ** The properties on the sample inputs *)


Lemma score_threshold_monotone_witness :
  length Sample.topic_words = length Sample.doc_topics /\
  (float_0_1 <= 1 # 4)%Q /\
  exists few many,
    score Sample.doc_topics Sample.topic_words (1 # 4) 3 = Return few /\
    score Sample.doc_topics Sample.topic_words float_0_1 3 = Return many /\
    length few <= length many.
Proof.
  assert (float_0_1 <= 1 # 4)%Q as Hle by (apply Qle_bool_iff; reflexivity).
  split; [reflexivity|]. split; [exact Hle|].
  exact (score_threshold_monotone Sample.doc_topics Sample.topic_words
           float_0_1 (1 # 4) 3 eq_refl Hle).
Defined.

Lemma train_topic_model_fails_softly_witness :
  FitTransform (map (fun x => preprocess_text (Str x) true) Sample.drained_corpus)
    ∈ events (train_topic_model 7%N Sample.drained_corpus 25 true) /\
  result (train_topic_model 7%N Sample.drained_corpus 25 true) = Return (None, None).
Proof.
  assert (FitTransform (map (fun x => preprocess_text (Str x) true) Sample.drained_corpus)
            ∈ events (train_topic_model 7%N Sample.drained_corpus 25 true)) as Hreach.
  { apply train_topic_model_reaches_fit. intros _. discriminate. }
  split; [exact Hreach|].
  destruct (@train_topic_model_fails_softly Reference.toolkit Reference.sklearn
              7%N Sample.drained_corpus 25 true Hreach)
    as (_ & _ & _ & Hdrained).
  apply Hdrained.
  - apply reference_no_terms.
  - repeat constructor.
Defined.

Lemma normalization_fixed_point_witness :
  let input := Str "The economy is growing (00:01) said the president" in
  surface_tokens (Str (preprocess_text input false)) = output_tokens input /\
  Forall (fun t => t ∉ custom_stopwords) (output_tokens input) /\
  Forall (fun t => lemmatize t = t) (output_tokens input) /\
  preprocess_text (Str (preprocess_text input false)) false = preprocess_text input false.
Proof.
  intros input.
  assert (surface_tokens (Str (preprocess_text input false)) = output_tokens input)
    as Htokens by (vm_compute; reflexivity).
  assert (Forall (fun t => t ∉ custom_stopwords) (output_tokens input)) as Hstop
    by (refine (bool_decide_unpack _ _); vm_compute; exact I).
  assert (Forall (fun t => lemmatize t = t) (output_tokens input)) as Hlemma
    by (refine (bool_decide_unpack _ _); vm_compute; exact I).
  split; [exact Htokens|]. split; [exact Hstop|]. split; [exact Hlemma|].
  exact (normalization_fixed_point input false false Htokens Hstop Hlemma).
Defined.

(** C5, as stated, fails: "things" normalizes to "thing", which the
    extension list has, so that normalizing "thing" gives the empty
    string. *)
Lemma normalization_not_idempotent :
  preprocess_text (Str "things") false = "thing" /\
  preprocess_text (Str (preprocess_text (Str "things") false)) false = "" /\
  preprocess_text (Str (preprocess_text (Str "things") false)) false
  <> preprocess_text (Str "things") false.
Proof.
  split; [vm_compute; reflexivity|]. split; [vm_compute; reflexivity|].
  vm_compute. discriminate.
Qed.

Lemma stopword_lemma_survives_witness :
  ("things" ∈ surface_tokens (Str "things")) /\
  ("things" ∉ custom_stopwords) /\
  (lemmatize "things" ∈ custom_stopwords) /\
  exists before after : list string,
    output_tokens (Str "things") = before ++ lemmatize "things" :: after /\
    preprocess_text (Str "things") false
    = Py.join " " (before ++ lemmatize "things" :: after) /\
    Exists (fun w => w ∈ custom_stopwords) (output_tokens (Str "things")).
Proof.
  assert ("things" ∈ surface_tokens (Str "things")) as Hin
    by (refine (bool_decide_unpack _ _); vm_compute; exact I).
  assert ("things" ∉ custom_stopwords) as Hsurface
    by (refine (bool_decide_unpack _ _); vm_compute; exact I).
  assert (lemmatize "things" ∈ custom_stopwords) as Hlemma
    by (refine (bool_decide_unpack _ _); vm_compute; exact I).
  split; [exact Hin|]. split; [exact Hsurface|]. split; [exact Hlemma|].
  exact (stopword_lemma_survives (Str "things") false "things" Hin Hsurface Hlemma).
Defined.

Lemma empty_document_is_vectorized_witness :
  Sample.drained_corpus !! 0 = Some "the" /\
  Forall (fun t => t ∈ custom_stopwords) (surface_tokens (Str "the")) /\
  preprocess_text (Str "the") true = "".
Proof.
  assert (Forall (fun t => t ∈ custom_stopwords) (surface_tokens (Str "the"))) as Hall
    by (refine (bool_decide_unpack _ _); vm_compute; exact I).
  split; [reflexivity|]. split; [exact Hall|].
  exact (proj1 (@empty_document_is_vectorized Reference.toolkit Reference.sklearn
                  7%N Sample.drained_corpus 25 true 0 "the"
                  Sample.fitted Sample.components Sample.topic_words eq_refl Hall)).
Defined.

Lemma get_topic_words_highest_witness :
  argsort_sorts argsort /\
  Forall (fun topic => length topic = length ["trade"; "policy"])
         (components_ Sample.components) /\
  exists topic_words,
    get_topic_words Sample.components ["trade"; "policy"] 1 = Return topic_words /\
    length topic_words = 2.
Proof.
  assert (Forall (fun topic => length topic = length ["trade"; "policy"])
            (components_ Sample.components)) as Hlen by (repeat constructor).
  split; [exact reference_argsort_sorts|]. split; [exact Hlen|].
  destruct (@get_topic_words_highest Reference.sklearn
              Sample.components ["trade"; "policy"] 1
              reference_argsort_sorts Hlen) as (topic_words & Heq & Hall).
  exists topic_words. split; [exact Heq|].
  apply Forall2_length in Hall. rewrite <- Hall. reflexivity.
Defined.

Lemma transform_frozen_vocabulary_witness :
  (forall term, term ∈ BagOfWords.analyze Reference.english "zebra crossing" ->
                BagOfWords.index_of (BagOfWords.vocabulary Sample.fitted) term = None) /\
  BagOfWords.transform Reference.english Sample.fitted ["zebra crossing"]
  = Return (Sample.fitted, [[0; 0]]).
Proof.
  assert (forall term, term ∈ BagOfWords.analyze Reference.english "zebra crossing" ->
            BagOfWords.index_of (BagOfWords.vocabulary Sample.fitted) term = None) as Hout.
  { intros term Hin. apply list_elem_of_In in Hin. vm_compute in Hin.
    destruct Hin as [<-|[<-|[<-|[]]]]; reflexivity. }
  split; [exact Hout|].
  exact (proj1 (transform_frozen_vocabulary Reference.english Sample.fitted
                  "zebra crossing" Hout)).
Defined.


(** * Further properties of the page *)

(** ** Strings *)

Lemma prefix_length (n : nat) (s : string) :
  String.length (Py.prefix n s) = n `min` String.length s.
Proof.
  unfold Py.prefix. revert n. induction s as [|c s IH]; intros [|n]; cbn; try done.
  by rewrite IH.
Qed.

Lemma prefix_suffix (n : nat) (s : string) :
  Py.prefix n s +:+ os_path.suffix_from n s = s.
Proof.
  unfold Py.prefix. revert n. induction s as [|c s IH]; intros [|n]; try done.
  cbn [String.substring os_path.suffix_from].
  change (String c (String.substring 0 n s) +:+ os_path.suffix_from n s)
    with (String c (String.substring 0 n s +:+ os_path.suffix_from n s)).
  by rewrite IH.
Qed.

Lemma prefix_app (s1 s2 : string) : Py.prefix (String.length s1) (s1 +:+ s2) = s1.
Proof.
  unfold Py.prefix. induction s1 as [|c s1 IH].
  - by destruct s2.
  - change (String c s1 +:+ s2) with (String c (s1 +:+ s2)). cbn. by rewrite IH.
Qed.

Lemma suffix_from_app (s1 s2 : string) :
  os_path.suffix_from (String.length s1) (s1 +:+ s2) = s2.
Proof.
  induction s1 as [|c s1 IH]; [done|].
  change (String c s1 +:+ s2) with (String c (s1 +:+ s2)). cbn. exact IH.
Qed.

(** X1: a preview is never longer than 53 characters; a text of at most
    50 characters is its own preview, a longer one is previewed by its
    first 50 characters and three dots. *)
Theorem display_is_bounded (x : string) :
  String.length (display x) <= 53 /\
  (String.length x <= 50 -> display x = x) /\
  (50 < String.length x ->
   display x = Py.prefix 50 x +:+ "..." /\ String.length (display x) = 53).
Proof.
  unfold display. destruct (50 <? String.length x)%nat eqn:Hlong.
  - apply Nat.ltb_lt in Hlong.
    assert (String.length (Py.prefix 50 x +:+ "...") = 53) as Hlen.
    { rewrite string_length_app, prefix_length.
      change (String.length "...") with 3. lia. }
    split; [lia|]. split; [lia|]. done.
  - apply Nat.ltb_ge in Hlong. split; [lia|]. split; [done|lia].
Qed.

Lemma display_is_bounded_witness :
  String.length "short text" <= 50 /\ display "short text" = "short text".
Proof.
  assert (String.length "short text" <= 50) as Hshort by (cbn; lia).
  split; [exact Hshort|].
  exact (proj1 (proj2 (display_is_bounded "short text")) Hshort).
Defined.

(** ** Timestamps *)

Lemma removed_length (s r : string) (ts : list string) :
  removed s r ts ->
  Forall Re.timestamp ts /\ String.length s = String.length r + 7 * length ts.
Proof.
  induction 1 as [|t rest r ts Ht _ [Hts IH]|c s r ts _ _ [Hts IH]].
  - by split.
  - split; [by constructor|].
    rewrite string_length_app, (timestamp_length t Ht), IH. cbn [length]. lia.
  - split; [done|]. cbn [String.length]. lia.
Qed.

Lemma scan_removed (s : string) : exists ts, removed s (Re.sub_timestamp s) ts.
Proof.
  unfold Re.sub_timestamp.
  remember (String.length s) as n eqn:Hn.
  revert s Hn. induction (lt_wf n) as [n _ IH]. intros s ->.
  destruct s as [|c s]; [exists []; constructor|].
  destruct (Re.timestamp_at (String c s)) eqn:Hat.
  - destruct (timestamp_at_true _ Hat) as (t & rest & Heq & Ht).
    assert (String.length rest < String.length (String c s)) as Hlt.
    { rewrite Heq, string_length_app, (timestamp_length t Ht). lia. }
    destruct (IH _ Hlt rest eq_refl) as [ts Hts].
    exists (t :: ts). rewrite Heq, scan_timestamp by done. by constructor.
  - assert (String.length s < String.length (String c s)) as Hlt by (cbn; lia).
    destruct (IH _ Hlt s eq_refl) as [ts Hts].
    exists ts. cbn [Re.scan]. rewrite Hat. by constructor.
Qed.

(** X2: stripping the timestamps removes whole matches only.  The result
    is the text without the matches of the pattern found from left to
    right, every other character kept, and the text is shorter by seven
    characters for each match removed. *)
Theorem sub_timestamp_length (s : string) :
  exists ts : list string,
    removed s (Re.sub_timestamp s) ts /\
    Forall Re.timestamp ts /\
    String.length s = String.length (Re.sub_timestamp s) + 7 * length ts.
Proof.
  destruct (scan_removed s) as [ts Hts]. exists ts. split; [done|].
  by apply removed_length.
Qed.

Lemma timestamp_at_paren (c : ascii) (s : string) :
  Re.timestamp_at (String c s) = true -> c = "("%char.
Proof.
  intros Hat. destruct (timestamp_at_true _ Hat) as (t & rest & Heq & Ht).
  destruct Ht. cbv [String.append] in Heq. by injection Heq.
Qed.

(** X3: a text without an opening parenthesis has no timestamp and comes
    back as it is. *)
Theorem sub_timestamp_without_parenthesis (s : string) :
  has_char "(" s = false -> Re.sub_timestamp s = s.
Proof.
  unfold Re.sub_timestamp. induction s as [|c s IH]; [done|].
  cbn [has_char]. intros [Hc Hs]%orb_false_elim.
  cbn [Re.scan].
  destruct (Re.timestamp_at (String c s)) eqn:Hat.
  - apply timestamp_at_paren in Hat. subst c. discriminate.
  - by rewrite IH.
Qed.

Lemma sub_timestamp_without_parenthesis_witness :
  has_char "(" "the economy grows 10:30" = false /\
  Re.sub_timestamp "the economy grows 10:30" = "the economy grows 10:30".
Proof.
  assert (has_char "(" "the economy grows 10:30" = false) as Hnone by reflexivity.
  split; [exact Hnone|].
  exact (sub_timestamp_without_parenthesis "the economy grows 10:30" Hnone).
Defined.

(** ** Upload *)

Lemma has_char_app (c : ascii) (s1 s2 : string) :
  has_char c (s1 +:+ s2) = has_char c s1 || has_char c s2.
Proof.
  induction s1 as [|a s1 IH]; [done|].
  change (String a s1 +:+ s2) with (String a (s1 +:+ s2)).
  cbn [has_char]. by rewrite IH, orb_assoc.
Qed.

Lemma rfind_from_absent (c : ascii) (s : string) (pos : nat) (found : option nat) :
  has_char c s = false -> os_path.rfind_from c s pos found = found.
Proof.
  revert pos found. induction s as [|a s IH]; intros pos found; [done|].
  cbn [has_char os_path.rfind_from]. intros [Ha Hs]%orb_false_elim.
  rewrite Ha. by apply IH.
Qed.

Lemma rfind_from_app (c : ascii) (s1 s2 : string) (pos : nat) (found : option nat) :
  os_path.rfind_from c (s1 +:+ s2) pos found
  = os_path.rfind_from c s2 (pos + String.length s1) (os_path.rfind_from c s1 pos found).
Proof.
  revert pos found. induction s1 as [|a s1 IH]; intros pos found.
  - cbn. by rewrite Nat.add_0_r.
  - change (String a s1 +:+ s2) with (String a (s1 +:+ s2)).
    cbn [os_path.rfind_from String.length]. rewrite IH. f_equal. lia.
Qed.

(** A name made of a stem and one extension splits into the two. *)
Lemma splitext_stem (stem e : string) :
  stem <> "" ->
  has_char "." stem = false -> has_char "/" stem = false ->
  has_char "." e = false -> has_char "/" e = false ->
  os_path.splitext (stem +:+ "." +:+ e) = (stem, "." +:+ e).
Proof.
  intros Hne Hdot Hsep Hedot Hesep. unfold os_path.splitext, os_path.rfind.
  assert (os_path.rfind_from "/" (stem +:+ "." +:+ e) 0 None = None) as ->.
  { apply rfind_from_absent. rewrite !has_char_app, Hsep, Hesep. done. }
  assert (os_path.rfind_from "." (stem +:+ "." +:+ e) 0 None = Some (String.length stem))
    as ->.
  { rewrite rfind_from_app, (rfind_from_absent "." stem) by done.
    change ("." +:+ e) with (String "." e). cbn [os_path.rfind_from Ascii.eqb].
    cbn. by rewrite rfind_from_absent. }
  rewrite prefix_app, suffix_from_app.
  destruct stem as [|a stem]; [done|].
  cbn [has_char] in Hdot. apply orb_false_elim in Hdot as [Ha _].
  change (String a stem +:+ "." +:+ e) with (String a (stem +:+ "." +:+ e)).
  cbn [String.length Nat.sub Nat.leb andb os_path.name_before_dot String.get].
  by rewrite Ha.
Qed.

Section UploadFacts.
Context `{Pandas}.

Lemma read_or_report_returns (r : string + DataFrame) :
  exists df log,
    read_or_report r = (log, Return df) /\
    match df with
    | Some _ => log = []
    | None => exists msg, log = [Error msg]
    end.
Proof.
  destruct r as [msg|df].
  - exists None, [Error ("Error loading file: " +:+ msg)]. split; [done|]. by eexists.
  - by exists (Some df), [].
Qed.

(** X4: the upload section never raises.  It ends with a frame and
    nothing written, or without a frame: then exactly one error was
    written if a file had been uploaded, and nothing if none had. *)
Theorem load_dataset_never_raises (uploaded_file : option upload.UploadedFile) :
  exists df log,
    load_dataset uploaded_file = (log, Return df) /\
    match df, uploaded_file with
    | Some _, Some _ => log = []
    | Some _, None => False
    | None, Some _ => exists msg, log = [Error msg]
    | None, None => log = []
    end.
Proof.
  destruct uploaded_file as [f|]; [|by exists None, []].
  unfold load_dataset.
  assert (forall r, exists df log,
            read_or_report r = (log, Return df) /\
            match df with
            | Some _ => log = []
            | None => exists msg, log = [Error msg]
            end) as Hread by apply read_or_report_returns.
  repeat case_decide; try apply Hread.
  exists None, [Error unsupported_file_type]. split; [done|]. by eexists.
Qed.

(** X5: each of the four file types the uploader accepts has its reader:
    a file named by a stem without dot and slash and one of the
    extensions csv, xlsx, pkl, pickle is read by the reader of that type,
    and what the reader raises is reported, not raised. *)
Theorem load_dataset_dispatches (type stem : string) (f : upload.UploadedFile)
    (reader : upload.UploadedFile -> string + DataFrame) :
  reader_of type = Some reader ->
  stem <> "" -> has_char "." stem = false -> has_char "/" stem = false ->
  upload.name f = stem +:+ "." +:+ type ->
  load_dataset (Some f) = read_or_report (reader f).
Proof.
  intros Hreader Hne Hdot Hsep Hname.
  assert (snd (os_path.splitext (upload.name f)) = "." +:+ type
          /\ ((type = "csv" /\ reader = read_csv) \/ (type = "xlsx" /\ reader = read_excel)
              \/ (type = "pkl" /\ reader = read_pickle)
              \/ (type = "pickle" /\ reader = read_pickle))) as [Hext Htype].
  { unfold reader_of in Hreader.
    destruct (decide (type = "csv")) as [->|_];
      [|destruct (decide (type = "xlsx")) as [->|_];
        [|destruct (decide (type = "pkl")) as [->|_];
          [|destruct (decide (type = "pickle")) as [->|_]; [|done]]]];
      injection Hreader as <-; rewrite Hname, splitext_stem by done; auto 6. }
  unfold load_dataset. rewrite Hext.
  destruct Htype as [[-> ->]|[[-> ->]|[[-> ->]|[-> ->]]]]; reflexivity.
Qed.

End UploadFacts.

Lemma load_dataset_dispatches_witness :
  reader_of "csv" = Some read_csv /\
  "speeches" <> "" /\
  has_char "." "speeches" = false /\
  has_char "/" "speeches" = false /\
  upload.name ReferenceUpload.speeches_csv = "speeches" +:+ "." +:+ "csv" /\
  load_dataset (Some ReferenceUpload.speeches_csv)
  = read_or_report (read_csv ReferenceUpload.speeches_csv).
Proof.
  assert ("speeches" <> "") as Hne by discriminate.
  split; [reflexivity|]. split; [exact Hne|].
  split; [reflexivity|]. split; [reflexivity|]. split; [reflexivity|].
  exact (load_dataset_dispatches "csv" "speeches" ReferenceUpload.speeches_csv read_csv
           eq_refl Hne eq_refl eq_refl eq_refl).
Defined.

(** ** Outcomes of training *)

Section TrainerOutcomes.
Context `{Toolkit} `{Sklearn}.

Lemma diagnostics_all_writes {A : Type} (log : list event) (r : outcome A) :
  Forall is_write log -> diagnostics (log, r) = [].
Proof.
  intros Hlog. rewrite <- (app_nil_r log). by rewrite diagnostics_writes.
Qed.

(** X6: the result of [train_topic_model] and its diagnostics go
    together: the result is [(None, None)] with exactly one error written,
    or a vectorizer and a model with no error written, or an exception
    with no error written; it is never one of the two without the other. *)
Theorem train_topic_model_outcome (global : Generator) (df : list string)
    (n_topics : nat) (debug : bool) :
  let run := train_topic_model global df n_topics debug in
  match result run with
  | Return (None, None) => exists e, diagnostics run = [e]
  | Return (Some _, Some _) => diagnostics run = []
  | Return _ => False
  | Raise _ => diagnostics run = []
  end.
Proof.
  intros run. subst run.
  destruct (decide (debug = true /\ df = [])) as [[-> ->]|Hreach].
  { by rewrite train_topic_model_debug_no_rows. }
  assert (debug = true -> df <> []) as Hdf by (intros ? ?; by apply Hreach).
  destruct (train_topic_model_run global df n_topics debug Hdf) as (before & Hbefore & Hrun).
  cbn zeta in Hrun.
  destruct (fit_transform _ _) as [[v X]|[msg| |cls msg]].
  - destruct (length (vocabulary_ v) =? 0)%nat.
    + rewrite Hrun. cbn [result snd]. rewrite diagnostics_writes by done. by eexists.
    + destruct Hrun as (after & Hafter & ->). cbn [result snd].
      rewrite diagnostics_writes by done.
      assert (forall A (r : outcome A), diagnostics (FitTransform
                (map (fun x => preprocess_text (Str x) debug) df) :: after, r) = [])
        as Hnone.
      { intros A r. apply (diagnostics_all_writes after r) in Hafter as Ha.
        unfold diagnostics, events in *. cbn in *. exact Ha. }
      destruct (lda_em _ _ _ _); apply Hnone.
  - rewrite Hrun. cbn [result snd]. rewrite diagnostics_writes by done. by eexists.
  - rewrite Hrun. cbn [result snd]. by rewrite diagnostics_writes.
  - rewrite Hrun. cbn [result snd]. by rewrite diagnostics_writes.
Qed.

(** X7: only a value error of the vectorizer is handled.  Any other
    exception of [fit_transform], and any exception of the fit of the topic
    model, value errors included, leaves [train_topic_model] as it was
    raised, with no error written. *)
Theorem train_topic_model_propagates (global : Generator) (df : list string)
    (n_topics : nat) (debug : bool) (e : exception) :
  (debug = true -> df <> []) ->
  let docs := map (fun x => preprocess_text (Str x) debug) df in
  let run := train_topic_model global df n_topics debug in
  (fit_transform app_vectorizer docs = Raise e /\ (forall msg, e <> ValueError msg)) \/
  (exists v X,
     fit_transform app_vectorizer docs = Return (v, X) /\
     length (vocabulary_ v) <> 0 /\
     lda_em (RandomState 42) n_topics 10 X = Raise e) ->
  result run = Raise e /\ diagnostics run = [].
Proof.
  intros Hdf docs run Hcase. subst run.
  destruct (train_topic_model_run global df n_topics debug Hdf) as (before & Hbefore & Hrun).
  fold docs in Hrun. cbn zeta in Hrun.
  destruct Hcase as [[Hfit Hne]|(v & X & Hfit & Hvoc & Hem)]; rewrite Hfit in Hrun.
  - destruct e as [msg| |cls msg]; [by destruct (Hne msg)|..];
      rewrite Hrun; (split; [done|by rewrite diagnostics_writes]).
  - apply Nat.eqb_neq in Hvoc. rewrite Hvoc in Hrun.
    destruct Hrun as (after & Hafter & ->). rewrite Hem. split; [done|].
    rewrite diagnostics_writes by done.
    apply (diagnostics_all_writes after (@Raise unit e)) in Hafter as Ha.
    unfold diagnostics, events in *. cbn in *. exact Ha.
Qed.

End TrainerOutcomes.

Lemma train_topic_model_propagates_witness :
  result (train_topic_model 7%N Sample.corpus 0 false)
  = Raise (ValueError "n_components must be positive") /\
  diagnostics (train_topic_model 7%N Sample.corpus 0 false) = [].
Proof.
  apply (@train_topic_model_propagates Reference.toolkit Reference.sklearn
           7%N Sample.corpus 0 false (ValueError "n_components must be positive")).
  - discriminate.
  - right. eexists _, _. split; [vm_compute; reflexivity|]. split; [discriminate|reflexivity].
Defined.

(** ** Ties in the ranking *)

Lemma ranked_before_le (x z : nat * Q) :
  (snd z <= snd x)%Q -> fst x < fst z -> ranked_before x z.
Proof.
  intros Hle Hlt. unfold ranked_before.
  apply Qle_lteq in Hle as [Hs|Heq]; [by left|].
  right. split; [by symmetry|done].
Qed.

Lemma ranked_before_key (y z : nat * Q) : ranked_before y z -> (snd z <= snd y)%Q.
Proof.
  intros [Hlt|[Heq _]]; [by apply Qlt_le_weak|].
  rewrite Heq. apply Qle_refl.
Qed.

Lemma insert_reverse_ranked (x : nat * Q) (sorted : list (nat * Q)) :
  StronglySorted ranked_before sorted ->
  Forall (fun y => fst x < fst y) sorted ->
  StronglySorted ranked_before (insert_reverse snd x sorted).
Proof.
  induction 1 as [|y rest Hrest IH Hy]; intros Hlater; cbn.
  - by repeat constructor.
  - apply Forall_cons in Hlater as [Hxy Hlater].
    destruct (Qle_bool (snd y) (snd x)) eqn:Hle.
    + apply Qle_bool_iff in Hle. constructor; [by constructor|].
      constructor; [by apply ranked_before_le|].
      rewrite Forall_forall in Hy, Hlater. apply Forall_forall. intros z Hz.
      apply ranked_before_le; [|by apply Hlater].
      eapply Qle_trans; [apply ranked_before_key, Hy, Hz|exact Hle].
    + constructor; [by apply IH|].
      rewrite insert_reverse_perm. constructor; [|done].
      left. apply Qnot_le_lt. intros Hc. apply Qle_bool_iff in Hc. congruence.
Qed.

Lemma sort_reverse_ranked (xs : list (nat * Q)) :
  StronglySorted lt (map fst xs) ->
  StronglySorted ranked_before (sort_reverse snd xs).
Proof.
  induction xs as [|x xs IH]; intros Hsorted; [constructor|].
  cbn in Hsorted. apply StronglySorted_inv in Hsorted as [Hxs Hx].
  change (sort_reverse snd (x :: xs)) with (insert_reverse snd x (sort_reverse snd xs)).
  apply insert_reverse_ranked; [by apply IH|].
  rewrite sort_reverse_perm. rewrite Forall_fmap in Hx. exact Hx.
Qed.

Lemma seq_strongly_sorted (j n : nat) : StronglySorted lt (seq j n).
Proof.
  revert j. induction n as [|n IH]; intros j; [constructor|].
  cbn. constructor; [apply IH|].
  apply Forall_forall. intros k Hk. apply elem_of_seq in Hk. lia.
Qed.

Lemma sublist_strongly_sorted {A : Type} (R : A -> A -> Prop) (l1 l2 : list A) :
  l1 `sublist_of` l2 -> StronglySorted R l2 -> StronglySorted R l1.
Proof.
  induction 1 as [|x l1 l2 Hsub IH|x l1 l2 Hsub IH]; intros Hs; [done|..].
  - apply StronglySorted_inv in Hs as [Hl2 Hx].
    constructor; [by apply IH|].
    rewrite Forall_forall in Hx. apply Forall_forall. intros z Hz.
    apply Hx. by eapply elem_of_sublist.
  - apply StronglySorted_inv in Hs as [Hl2 _]. by apply IH.
Qed.

(** X8: the ranking is stable.  Of two topics above the threshold the
    stronger comes first, and of two equally strong ones the one of lower
    topic index. *)
Theorem relevant_topics_stable (doc_topics : list Q) (threshold : Q) :
  StronglySorted ranked_before (relevant_topics doc_topics threshold).
Proof.
  unfold relevant_topics. apply sort_reverse_ranked.
  apply (sublist_strongly_sorted lt _ (map fst (enumerate doc_topics))).
  - apply (fmap_sublist fst), comprehension_sublist. by intros [].
  - rewrite enumerate_fst. apply seq_strongly_sorted.
Qed.

(** ** What the block writes *)

Section KeyTopicsOutcomes.
Context `{Toolkit} `{Sklearn}.

Lemma write_topics_events (topic_words : list (list string)) (shown : list (nat * Q)) :
  exists lines,
    events (write_topics topic_words shown) = map Write lines /\
    match result (write_topics topic_words shown) with
    | Return _ =>
        length lines = length shown /\ Forall (fun p => p.1 < length topic_words) shown
    | Raise e =>
        e = IndexError /\ Exists (fun p => length topic_words <= p.1) shown
    end.
Proof.
  induction shown as [|[i s] shown (lines & Hev & Hres)].
  - exists []. by repeat split.
  - cbn [write_topics]. unfold index.
    destruct (topic_words !! i) as [words|] eqn:Hw.
    + apply lookup_lt_Some in Hw as Hi.
      exists (topic_line words s :: lines).
      destruct (write_topics topic_words shown) as [log r]. cbn in *. subst log.
      split; [done|]. destruct r as [[]|e].
      * destruct Hres as [Hlen Hall]. split; [by rewrite Hlen|]. by constructor.
      * destruct Hres as [-> Hex]. split; [done|]. by right.
    + apply lookup_ge_None in Hw. exists []. cbn. split; [done|].
      split; [done|]. by left.
Qed.

Lemma write_topics_lines (topic_words : list (list string)) (shown : list (nat * Q)) :
  result (write_topics topic_words shown) = Return tt ->
  exists lines,
    events (write_topics topic_words shown) = map Write lines /\
    Forall2 (fun '(topic_idx, strength) line =>
               exists words, topic_words !! topic_idx = Some words /\
                             line = topic_line words strength)
            shown lines.
Proof.
  induction shown as [|[i s] shown IH].
  - intros _. exists []. by split; [|constructor].
  - cbn [write_topics]. unfold index.
    destruct (topic_words !! i) as [words|] eqn:Hw; [|done].
    destruct (write_topics topic_words shown) as [log r]. cbn in *.
    intros ->. destruct (IH eq_refl) as (lines & -> & Hlines).
    exists (topic_line words s :: lines). split; [done|].
    constructor; [by exists words|done].
Qed.

(** X9: when the block returns, the vectorizer and the topic model have
    given the strengths of the transcript, and the block has written the
    heading and then either the one line that no topic is strong, when no
    strength is above 0.1, or else one line for each of the first three
    relevant topics, in their order, made of that topic's words and its
    strength: at least one line and at most three, and no error. *)
Theorem key_topics_lines (vectorizer : Vectorizer) (lda : LDA)
    (topic_words : list (list string)) (text : string) :
  result (key_topics (Some vectorizer) (Some lda) topic_words text) = Return tt ->
  exists vectorizer' X rows doc_topics lines,
    transform vectorizer [preprocess_text (Str text) false] = Return (vectorizer', X) /\
    lda_transform lda X = Return rows /\
    rows !! 0 = Some doc_topics /\
    events (key_topics (Some vectorizer) (Some lda) topic_words text)
    = Write "Key Topics for the Selected Transcript:"
        :: Transform [preprocess_text (Str text) false] :: map Write lines /\
    1 <= length lines <= 3 /\
    match relevant_topics doc_topics float_0_1 with
    | [] => lines = [no_strong_topics]
    | p :: rest =>
        Forall2 (fun '(topic_idx, strength) line =>
                   exists words, topic_words !! topic_idx = Some words /\
                                 line = topic_line words strength)
                (take 3 (p :: rest)) lines
    end.
Proof.
  unfold key_topics. cbn -[preprocess_text relevant_topics].
  destruct (transform vectorizer _) as [[v X]|e] eqn:Htransform;
    cbn -[preprocess_text relevant_topics]; [|done].
  destruct (lda_transform lda X) as [rows|e] eqn:Hlda;
    cbn -[preprocess_text relevant_topics]; [|done].
  unfold index. destruct (rows !! 0) as [doc_topics|] eqn:Hrow;
    cbn -[preprocess_text relevant_topics]; [|done].
  destruct (relevant_topics doc_topics float_0_1) as [|p rest] eqn:Hrel.
  - intros _. exists v, X, rows, doc_topics, [no_strong_topics].
    rewrite Hrel.
    split; [done|]. split; [done|]. split; [done|]. split; [done|].
    split; [cbn [length]; lia|done].
  - pose proof (write_topics_lines topic_words (take 3 (p :: rest))) as Hlines.
    destruct (write_topics topic_words (take 3 (p :: rest))) as [log r].
    cbn in *. intros ->. destruct (Hlines eq_refl) as (lines & -> & Hall).
    exists v, X, rows, doc_topics, lines. rewrite Hrel.
    split; [done|]. split; [done|]. split; [done|]. split; [done|].
    split; [|done].
    apply Forall2_length in Hall. rewrite <- Hall. cbn [length].
    rewrite ?length_take. lia.
Qed.

(** X10: a topic shown needs its word list.  When one of the topics to
    be shown has an index the word lists do not reach, the block raises
    [IndexError]. *)
Theorem key_topics_missing_words (vectorizer vectorizer' : Vectorizer) (lda : LDA)
    (topic_words : list (list string)) (text : string)
    (X : matrix) (rows : list (list Q)) (doc_topics : list Q) (i : nat) (s : Q) :
  transform vectorizer [preprocess_text (Str text) false] = Return (vectorizer', X) ->
  lda_transform lda X = Return rows ->
  rows !! 0 = Some doc_topics ->
  (i, s) ∈ take 3 (relevant_topics doc_topics float_0_1) ->
  length topic_words <= i ->
  result (key_topics (Some vectorizer) (Some lda) topic_words text) = Raise IndexError.
Proof.
  intros Ht Hl Hr Hin Hi. unfold key_topics.
  cbn -[preprocess_text relevant_topics]. rewrite Ht.
  cbn -[preprocess_text relevant_topics]. rewrite Hl.
  cbn -[preprocess_text relevant_topics]. unfold index. rewrite Hr.
  cbn -[preprocess_text relevant_topics].
  destruct (relevant_topics doc_topics float_0_1) as [|p rest] eqn:Hrel.
  { by apply elem_of_nil in Hin. }
  destruct (write_topics_events topic_words (take 3 (p :: rest)))
    as (lines & Hev & Hres).
  destruct (write_topics topic_words (take 3 (p :: rest))) as [log r].
  cbn in *. destruct r as [[]|e].
  - destruct Hres as [_ Hall]. rewrite Forall_forall in Hall.
    specialize (Hall (i, s) Hin). cbn in Hall. lia.
  - by destruct Hres as [-> _].
Qed.

End KeyTopicsOutcomes.

Lemma key_topics_lines_witness :
  result (key_topics (Some Sample.fitted) (Some Sample.components)
            Sample.topic_words "economy trade") = Return tt /\
  exists lines,
    events (key_topics (Some Sample.fitted) (Some Sample.components)
              Sample.topic_words "economy trade")
    = Write "Key Topics for the Selected Transcript:"
        :: Transform [preprocess_text (Str "economy trade") false] :: map Write lines /\
    1 <= length lines <= 3.
Proof.
  assert (result (key_topics (Some Sample.fitted) (Some Sample.components)
                    Sample.topic_words "economy trade") = Return tt) as Hreturns
    by (vm_compute; reflexivity).
  split; [exact Hreturns|].
  destruct (@key_topics_lines Reference.toolkit Reference.sklearn
              Sample.fitted Sample.components Sample.topic_words "economy trade" Hreturns)
    as (v & X & rows & doc_topics & lines & _ & _ & _ & Hevents & Hcount & _).
  exists lines. split; [exact Hevents|exact Hcount].
Defined.

Lemma key_topics_missing_words_witness :
  transform Sample.fitted [preprocess_text (Str "economy trade") false]
  = Return (Sample.fitted, [[1; 0]]) /\
  lda_transform Sample.components [[1; 0]] = Return [[2 # 3; 1 # 3]] /\
  ((0, 2 # 3) ∈ take 3 (relevant_topics [2 # 3; 1 # 3] float_0_1)) /\
  result (key_topics (Some Sample.fitted) (Some Sample.components) [] "economy trade")
  = Raise IndexError.
Proof.
  assert (transform Sample.fitted [preprocess_text (Str "economy trade") false]
          = Return (Sample.fitted, [[1; 0]])) as Htransform by (vm_compute; reflexivity).
  assert (lda_transform Sample.components [[1; 0]] = Return [[2 # 3; 1 # 3]]) as Hlda
    by (vm_compute; reflexivity).
  assert ((0, 2 # 3) ∈ take 3 (relevant_topics [2 # 3; 1 # 3] float_0_1)) as Hshown
    by (apply list_elem_of_In; vm_compute; auto).
  split; [exact Htransform|]. split; [exact Hlda|]. split; [exact Hshown|].
  exact (@key_topics_missing_words Reference.toolkit Reference.sklearn
           Sample.fitted Sample.fitted Sample.components [] "economy trade"
           [[1; 0]] [[2 # 3; 1 # 3]] [2 # 3; 1 # 3] 0 (2 # 3)
           Htransform Hlda eq_refl Hshown (Nat.le_refl 0)).
Defined.

(** ** The shape of the word lists *)

Section TopWordsOutcomes.
Context `{Sklearn}.

Lemma lookup_all_outcome (feature_names : list string) (idxs : list nat) :
  match lookup_all feature_names idxs with
  | Return words =>
      length words = length idxs /\ Forall (fun i => i < length feature_names) idxs
  | Raise e => e = IndexError /\ Exists (fun i => length feature_names <= i) idxs
  end.
Proof.
  induction idxs as [|i idxs IH]; [by split|].
  cbn [lookup_all]. unfold index.
  destruct (feature_names !! i) as [w|] eqn:Hw.
  - apply lookup_lt_Some in Hw.
    destruct (lookup_all feature_names idxs) as [words|e].
    + destruct IH as [Hlen Hall]. split; [by cbn; rewrite Hlen|]. by constructor.
    + destruct IH as [-> Hex]. split; [done|]. by right.
  - apply lookup_ge_None in Hw. split; [done|]. by left.
Qed.

Lemma topic_words_of_outcome (topics : list (list Q)) (feature_names : list string)
    (n_top_words : nat) :
  match topic_words_of topics feature_names n_top_words with
  | Return topic_words =>
      length topic_words = length topics /\
      Forall (fun words => length words <= n_top_words) topic_words /\
      Forall (fun topic =>
                Forall (fun i => i < length feature_names)
                       (last_reversed n_top_words (argsort topic))) topics
  | Raise e => e = IndexError
  end.
Proof.
  induction topics as [|topic topics IH]; [by repeat split|].
  cbn [topic_words_of].
  pose proof (lookup_all_outcome feature_names
                (last_reversed n_top_words (argsort topic))) as Hwords.
  destruct (lookup_all _ _) as [words|e]; [|by destruct Hwords].
  destruct Hwords as [Hlen Hin].
  destruct (topic_words_of topics feature_names n_top_words) as [rest|e]; [|done].
  destruct IH as (Hrest & Hshort & Hall).
  split; [by cbn; rewrite Hrest|]. split; [|by constructor].
  constructor; [|done]. rewrite Hlen. unfold last_reversed. rewrite length_take. lia.
Qed.

(** X11: whatever [argsort] does, a result of [get_topic_words] has one
    word list per topic of the model, none longer than [n_top_words]; the
    only exception the function raises is [IndexError]. *)
Theorem get_topic_words_shape (model : LDA) (feature_names : list string)
    (n_top_words : nat) :
  match get_topic_words model feature_names n_top_words with
  | Return topic_words =>
      length topic_words = length (components_ model) /\
      Forall (fun words => length words <= n_top_words) topic_words
  | Raise e => e = IndexError
  end.
Proof.
  unfold get_topic_words.
  pose proof (topic_words_of_outcome (components_ model) feature_names n_top_words) as Hout.
  destruct (topic_words_of _ _ _); [|done]. destruct Hout as (Hlen & Hshort & _). done.
Qed.

(** X12: the feature names must reach every index looked up.  With an
    [argsort] that sorts, a topic vector longer than the list of feature
    names, all of whose indices are asked for, makes [get_topic_words]
    raise [IndexError]. *)
Theorem get_topic_words_short_names (model : LDA) (feature_names : list string)
    (n_top_words : nat) (topic : list Q) :
  argsort_sorts argsort ->
  topic ∈ components_ model ->
  length feature_names < length topic ->
  length topic <= n_top_words ->
  get_topic_words model feature_names n_top_words = Raise IndexError.
Proof.
  intros Hsort Htopic Hshort Hall. unfold get_topic_words.
  pose proof (topic_words_of_outcome (components_ model) feature_names n_top_words) as Hout.
  destruct (topic_words_of _ _ _) as [topic_words|e]; [|by rewrite Hout].
  destruct Hout as (_ & _ & Hin). rewrite Forall_forall in Hin.
  specialize (Hin topic Htopic). rewrite Forall_forall in Hin.
  destruct (Hsort topic) as [Hperm _].
  assert (length feature_names ∈ last_reversed n_top_words (argsort topic)) as Hlast.
  { unfold last_reversed. rewrite take_ge.
    - rewrite elem_of_reverse, Hperm, elem_of_seq. lia.
    - rewrite length_reverse, Hperm, length_seq. lia. }
  apply Hin in Hlast. lia.
Qed.

End TopWordsOutcomes.

Lemma get_topic_words_short_names_witness :
  argsort_sorts argsort /\
  ([3; 1]%Q ∈ components_ Sample.components) /\
  length ["trade"] < length [3; 1]%Q /\
  length [3; 1]%Q <= 2 /\
  get_topic_words Sample.components ["trade"] 2 = Raise IndexError.
Proof.
  assert ([3; 1]%Q ∈ components_ Sample.components) as Htopic by left.
  assert (length ["trade"] < length [3; 1]%Q) as Hshort by (cbn; lia).
  assert (length [3; 1]%Q <= 2) as Hall by (cbn; lia).
  split; [exact reference_argsort_sorts|]. split; [exact Htopic|].
  split; [exact Hshort|]. split; [exact Hall|].
  exact (@get_topic_words_short_names Reference.sklearn Sample.components ["trade"] 2
           [3; 1]%Q reference_argsort_sorts Htopic Hshort Hall).
Defined.

(** ** The model store *)

Section StoreFacts.
Context `{Toolkit} `{Sklearn}.

Lemma key_topics_events (vectorizer : option Vectorizer) (lda : option LDA)
    (topic_words : list (list string)) (text : string) :
  Forall (fun e => is_write e \/ exists docs, e = Transform docs)
         (events (key_topics vectorizer lda topic_words text)).
Proof.
  assert (forall s, is_write (Write s)) as Hw by (intros s; by exists s).
  assert (forall lines, Forall (fun e => is_write e \/ exists docs, e = Transform docs)
                               (map Write lines)) as Hlines.
  { intros lines. apply Forall_fmap, Forall_forall. intros line _. left. apply Hw. }
  destruct vectorizer as [v|], lda as [l|]; try constructor.
  unfold key_topics. cbn -[preprocess_text relevant_topics].
  assert (forall log, Forall (fun e => is_write e \/ exists docs, e = Transform docs) log ->
            Forall (fun e => is_write e \/ exists docs, e = Transform docs)
              (Write "Key Topics for the Selected Transcript:"
                 :: Transform [preprocess_text (Str text) false] :: log)) as Hhead.
  { intros log Hlog. constructor; [left; apply Hw|]. constructor; [right; by eexists|done]. }
  destruct (transform v _) as [[v' X]|e];
    cbn -[preprocess_text relevant_topics]; [|apply Hhead; constructor].
  destruct (lda_transform l X) as [rows|e];
    cbn -[preprocess_text relevant_topics]; [|apply Hhead; constructor].
  destruct (index rows 0) as [doc_topics|e];
    cbn -[preprocess_text relevant_topics]; [|apply Hhead; constructor].
  destruct (relevant_topics doc_topics float_0_1) as [|p rest].
  - apply Hhead. constructor; [left; apply Hw|constructor].
  - destruct (write_topics_events topic_words (take 3 (p :: rest))) as (lines & Hev & _).
    destruct (write_topics topic_words (take 3 (p :: rest))) as [log r].
    cbn in *. subst log. apply Hhead, Hlines.
Qed.

Lemma train_topic_model_events (global : Generator) (df : list string)
    (n_topics : nat) (debug : bool) :
  Forall (fun e => forall docs, e <> Transform docs)
         (events (train_topic_model global df n_topics debug)).
Proof.
  assert (forall log, Forall is_write log ->
            Forall (fun e => forall docs, e <> Transform docs) log) as Hwrites.
  { intros log Hlog. eapply Forall_impl; [exact Hlog|]. by intros e [s ->] docs. }
  destruct (decide (debug = true /\ df = [])) as [[-> ->]|Hreach].
  { rewrite train_topic_model_debug_no_rows. by repeat constructor. }
  assert (debug = true -> df <> []) as Hdf by (intros ? ?; by apply Hreach).
  destruct (train_topic_model_run global df n_topics debug Hdf) as (before & Hbefore & Hrun).
  cbn zeta in Hrun.
  destruct (fit_transform _ _) as [[v X]|[msg| |cls msg]].
  - destruct (length (vocabulary_ v) =? 0)%nat.
    + rewrite Hrun. cbn. apply Forall_app. split; [by apply Hwrites|]. by repeat constructor.
    + destruct Hrun as (after & Hafter & ->). cbn. apply Forall_app.
      split; [by apply Hwrites|]. constructor; [done|by apply Hwrites].
  - rewrite Hrun. cbn. apply Forall_app. split; [by apply Hwrites|]. by repeat constructor.
  - rewrite Hrun. cbn. apply Forall_app. split; [by apply Hwrites|]. by repeat constructor.
  - rewrite Hrun. cbn. apply Forall_app. split; [by apply Hwrites|]. by repeat constructor.
Qed.

(** X13: an existing pickle is never retrained.  Whatever the data frame,
    the section leaves the file as it is and hands nothing to
    [fit_transform]. *)
Theorem topic_identification_reuses_pickle (global : Generator) (w : store)
    (df : list string) (text : string) :
  pickle_exists w = true ->
  fst (fst (topic_identification global w df text)) = fst w /\
  forall docs, FitTransform docs ∉ events (snd (topic_identification global w df text)).
Proof.
  intros Hexists. unfold topic_identification. rewrite Hexists. cbn [negb].
  assert (forall v l tw docs,
            FitTransform docs ∉ events (key_topics (Some v) (Some l) tw text)) as Hkey.
  { intros v l tw docs Hin.
    pose proof (key_topics_events (Some v) (Some l) tw text) as Hall.
    rewrite Forall_forall in Hall. by destruct (Hall _ Hin) as [[s ?]|[d ?]]. }
  unfold load_model. destruct w as [file cache]. cbn [fst snd] in *.
  destruct cache as [[[v l] tw]|].
  - pose proof (Hkey v l tw) as Hk.
    destruct (key_topics (Some v) (Some l) tw text) as [log r].
    cbn in *. split; [done|]. intros docs [Hin|Hin]%elem_of_cons; [done|].
    by apply (Hk docs).
  - destruct file as [|[[v l] tw]|]; [done| |].
    + pose proof (Hkey v l tw) as Hk.
      destruct (key_topics (Some v) (Some l) tw text) as [log r].
      cbn in *. split; [done|]. intros docs [Hin|Hin]%elem_of_cons; [done|].
      by apply (Hk docs).
    + split; [done|]. intros docs Hin. cbn in Hin.
      by apply list_elem_of_singleton in Hin.
Qed.

(** X14: when training gives no model, nothing is pickled and the
    transcript is not scored: the store is as before, nothing is handed to
    [transform], the last thing written is the error that training failed,
    and the section returns. *)
Theorem topic_identification_training_failed (global : Generator) (w : store)
    (df : list string) (text : string) :
  fst w = Missing ->
  result (train_topic_model global df default_n_topics true) = Return (None, None) ->
  topic_identification global w df text
  = (w, (Write training_message
           :: events (train_topic_model global df default_n_topics true)
           ++ [Error failed_to_train],
         Return tt)) /\
  forall docs, Transform docs ∉ events (snd (topic_identification global w df text)).
Proof.
  intros Hmissing Hfailed.
  assert (topic_identification global w df text
          = (w, (Write training_message
                   :: events (train_topic_model global df default_n_topics true)
                   ++ [Error failed_to_train],
                 Return tt))) as Heq.
  { unfold topic_identification, pickle_exists. rewrite Hmissing. cbn [negb].
    destruct (train_topic_model global df default_n_topics true) as [log r].
    cbn in Hfailed. by subst r. }
  split; [exact Heq|]. rewrite Heq. cbn. intros docs.
  rewrite elem_of_cons, elem_of_app, list_elem_of_singleton.
  intros [Hin|[Hin|Hin]]; [done| |done].
  pose proof (train_topic_model_events global df default_n_topics true) as Hall.
  rewrite Forall_forall in Hall. by apply (Hall _ Hin docs).
Qed.



End StoreFacts.

Lemma topic_identification_reuses_pickle_witness :
  pickle_exists SampleStore.saved = true /\
  fst (fst (topic_identification 7%N SampleStore.saved Sample.corpus "economy trade"))
  = fst SampleStore.saved.
Proof.
  assert (pickle_exists SampleStore.saved = true) as Hexists by reflexivity.
  split; [exact Hexists|].
  exact (proj1 (@topic_identification_reuses_pickle Reference.toolkit Reference.sklearn
                  7%N SampleStore.saved Sample.corpus "economy trade" Hexists)).
Defined.

Lemma topic_identification_training_failed_witness :
  fst SampleStore.empty = Missing /\
  result (train_topic_model 7%N Sample.drained_corpus default_n_topics true)
  = Return (None, None) /\
  fst (topic_identification 7%N SampleStore.empty Sample.drained_corpus "the")
  = SampleStore.empty.
Proof.
  assert (result (train_topic_model 7%N Sample.drained_corpus default_n_topics true)
          = Return (None, None)) as Hfailed by (vm_compute; reflexivity).
  split; [reflexivity|]. split; [exact Hfailed|].
  rewrite (proj1 (@topic_identification_training_failed Reference.toolkit Reference.sklearn
                    7%N SampleStore.empty Sample.drained_corpus "the" eq_refl Hfailed)).
  reflexivity.
Defined.


